(** * instastreamer_go: the authorization gate and the handlers of main.go

    A shallow embedding of [main.go]: the access-code validator, the store
    lookup, the [withAuth] middleware and the three API handlers, run in a
    small state monad over the response writer and a trace of the external
    calls (store lookups, subprocesses, log lines). *)

From stdpp Require Import base strings gmap list.
From Stdlib Require Import NArith ZArith Ascii String Lia.

Open Scope string_scope.
Open Scope N_scope.

Ltac Zify.zify_post_hook ::= Z.to_euclidean_division_equations.

(** ** Go strings

    A Go string is a sequence of bytes; [string] (a list of [ascii], eight
    bits each) is exactly that.  The library functions that look at
    characters ([strings.ToUpper], [regexp.MatchString]) decode the bytes as
    UTF-8 runes; a rune is a code point, kept in [N]. *)

Module utf8.

Definition rune := N.

Definition RuneError : rune := 0xFFFD.
Definition RuneSelf : N := 0x80.
Definition MaxRune : rune := 0x10FFFF.
Definition surrogateMin : rune := 0xD800.
Definition surrogateMax : rune := 0xDFFF.

Definition bytes (s : string) : list N :=
  map N_of_ascii (list_ascii_of_string s).

Definition of_bytes (l : list N) : string :=
  string_of_list_ascii (map ascii_of_N l).

Definition between (lo hi b : N) : bool := (lo <=? b) && (b <=? hi).

(** The table [first] of package utf8 with its accept ranges: for a
    leading byte, the length of the sequence and the interval allowed for
    the second byte; [None] for the bytes that start no sequence. *)
Definition first (b0 : N) : option (N * N * N) :=
  if between 0xC2 0xDF b0 then Some (2, 0x80, 0xBF)
  else if b0 =? 0xE0 then Some (3, 0xA0, 0xBF)
  else if between 0xE1 0xEC b0 then Some (3, 0x80, 0xBF)
  else if b0 =? 0xED then Some (3, 0x80, 0x9F)
  else if between 0xEE 0xEF b0 then Some (3, 0x80, 0xBF)
  else if b0 =? 0xF0 then Some (4, 0x90, 0xBF)
  else if between 0xF1 0xF3 b0 then Some (4, 0x80, 0xBF)
  else if b0 =? 0xF4 then Some (4, 0x80, 0x8F)
  else None.

(** [for _, c := range s]: the runes of a byte sequence.  A byte that
    starts no well-formed sequence yields [RuneError] and is skipped
    alone.  The masks and shifts of [DecodeRuneInString] are written as
    [mod] and multiplications: [b & 0x3F] is [b mod 64], [x << 6] is
    [x * 64], and the fields joined by [|] do not overlap. *)
Fixpoint decode (s : list N) : list rune :=
  match s with
  | [] => []
  | b0 :: t0 =>
    if b0 <? RuneSelf then b0 :: decode t0
    else
      let invalid := RuneError :: decode t0 in
      match first b0 with
      | None => invalid
      | Some (size, lo, hi) =>
        match t0 with
        | [] => invalid
        | b1 :: t1 =>
          if negb (between lo hi b1) then invalid
          else if size =? 2 then
            ((b0 mod 32) * 64 + b1 mod 64) :: decode t1
          else
            match t1 with
            | [] => invalid
            | b2 :: t2 =>
              if negb (between 0x80 0xBF b2) then invalid
              else if size =? 3 then
                ((b0 mod 16) * 4096 + (b1 mod 64) * 64 + b2 mod 64)
                  :: decode t2
              else
                match t2 with
                | [] => invalid
                | b3 :: t3 =>
                  if negb (between 0x80 0xBF b3) then invalid
                  else
                    ((b0 mod 8) * 262144 + (b1 mod 64) * 4096
                     + (b2 mod 64) * 64 + b3 mod 64) :: decode t3
                end
            end
        end
      end
  end.

(** [utf8.AppendRune]: a surrogate or a value above [MaxRune] is written
    as [RuneError]. *)
Definition encode3 (r : rune) : list N :=
  [0xE0 + r / 4096; 0x80 + (r / 64) mod 64; 0x80 + r mod 64].

Definition encode (r : rune) : list N :=
  if r <? RuneSelf then [r]
  else if r <=? 0x7FF then [0xC0 + r / 64; 0x80 + r mod 64]
  else if (MaxRune <? r) || between surrogateMin surrogateMax r
    then encode3 RuneError
  else if r <=? 0xFFFF then encode3 r
  else [0xF0 + r / 262144; 0x80 + (r / 4096) mod 64;
        0x80 + (r / 64) mod 64; 0x80 + r mod 64].

End utf8.

Module unicode.

Definition MaxASCII : utf8.rune := 0x7F.

(** The rows of the Unicode case table ([unicode.CaseRanges]) that take a
    rune above [MaxASCII] to an ASCII upper-case letter: U+0131 (dotless
    i) to [I] and U+017F (long s) to [S].  Every other row of the table
    has its upper case above [MaxASCII]; those runes are left as they are
    here, which keeps them above [MaxASCII] as well.  So [ToUpper] below is
    the library's function on the ASCII runes and on these two, and the
    upper case of a string matches the code pattern here exactly when it
    does in the library. *)
Definition To_UpperCase (r : utf8.rune) : utf8.rune :=
  if r =? 0x131 then 0x49
  else if r =? 0x17F then 0x53
  else r.

(** [unicode.ToUpper]. *)
Definition ToUpper (r : utf8.rune) : utf8.rune :=
  if r <=? MaxASCII then
    if utf8.between 0x61 0x7A r then r - 0x20 else r
  else To_UpperCase r.

End unicode.

Module strings.

(** [strings.Map]: every rune of [s] is replaced by its image, written
    back as UTF-8. *)
Definition Map (mapping : utf8.rune -> utf8.rune) (s : string) : string :=
  utf8.of_bytes
    (flat_map (fun c => utf8.encode (mapping c))
              (utf8.decode (utf8.bytes s))).

(** [strings.ToUpper]. *)
Definition ToUpper (s : string) : string := Map unicode.ToUpper s.

(** [strings.Contains]. *)
Fixpoint HasPrefix (s prefix : string) : bool :=
  match prefix, s with
  | EmptyString, _ => true
  | String p prefix', String c s' =>
    if Ascii.eqb p c then HasPrefix s' prefix' else false
  | String _ _, EmptyString => false
  end.

Fixpoint Contains (s substr : string) : bool :=
  HasPrefix s substr ||
  match s with
  | EmptyString => false
  | String _ s' => Contains s' substr
  end.

End strings.

Module regexp.

(** The fragment of the regexp syntax that [main.go] uses: a sequence of
    character classes, each a list of rune ranges, anchored at both ends
    ([^] and [$] without the multi-line flag match the very beginning and
    the very end of the text). *)
Definition class := list (utf8.rune * utf8.rune).

Definition in_class (c : class) (r : utf8.rune) : bool :=
  existsb (fun '(lo, hi) => utf8.between lo hi r) c.

Fixpoint match_runes (p : list class) (rs : list utf8.rune) : bool :=
  match p, rs with
  | [], [] => true
  | c :: p', r :: rs' => in_class c r && match_runes p' rs'
  | _, _ => false
  end.

Definition MatchString (p : list class) (s : string) : bool :=
  match_runes p (utf8.decode (utf8.bytes s)).

End regexp.

(** ** The access-code format *)

(** [[A-Z0-9]] and [-]. *)
Definition upperOrDigit : regexp.class := [(0x41, 0x5A); (0x30, 0x39)].
Definition hyphen : regexp.class := [(0x2D, 0x2D)].

(** [^[A-Z0-9]{3}-[A-Z0-9]{3}$] *)
Definition pattern : list regexp.class :=
  (replicate 3 upperOrDigit ++ [hyphen] ++ replicate 3 upperOrDigit)%list.

Definition isValidCodeFormat (code : string) : bool :=
  regexp.MatchString pattern (strings.ToUpper code).

(** ** Data of main.go *)

Definition error := string.

Record VideoInfo := {
  VideoInfo_URL : string;
  VideoInfo_Title : string;
  VideoInfo_Extension : string }.

Record StreamRequest := { StreamRequest_URL : string }.

Record AuthRequest := { Code : string }.

Record AuthResponse := {
  Valid : bool;
  Name : string;
  Error : string }.

(** JSON values: what [json.Unmarshal] stores in an [interface{}] and what
    the encoder writes.  A number keeps its literal. *)
#[warnings="-register-all"]
Inductive json :=
| JNull
| JBool (b : bool)
| JNumber (literal : string)
| JString (s : string)
| JArray (elems : list json)
| JObject (fields : list (string * json)).

(** The struct tags: [json:"name,omitempty"] leaves an empty string out. *)
Definition omitempty (key value : string) : list (string * json) :=
  if String.eqb value "" then [] else [(key, JString value)].

Definition AuthResponse_json (a : AuthResponse) : json :=
  JObject ([("valid", JBool (Valid a))] ++ omitempty "name" (Name a)
           ++ omitempty "error" (Error a))%list.

Definition VideoInfo_json (v : VideoInfo) : json :=
  JObject [("url", JString (VideoInfo_URL v));
           ("title", JString (VideoInfo_Title v));
           ("ext", JString (VideoInfo_Extension v))].

(** [v, ok := info[key].(string)] on a [map[string]interface{}]. *)
Definition string_field (info : gmap string json) (key : string)
  : option string :=
  match info !! key with
  | Some (JString s) => Some s
  | _ => None
  end.

(** *** The store *)

Inductive AttributeValue :=
| AttributeValueMemberS (Value : string)
| AttributeValueMemberN (Value : string)
| AttributeValueMemberBOOL (Value : bool)
| AttributeValueMemberNULL.

(** [GetItemOutput.Item] is [nil] when the table has no record under the
    key. *)
Record GetItemOutput := { Item : option (gmap string AttributeValue) }.

(** A [*dynamodb.Client], as far as [main.go] uses it: [GetItem] on a table
    with the key attribute [code], answering an output or an error. *)
Record Client := {
  GetItem : string -> string -> GetItemOutput + error }.

(** *** Requests and the response writer *)

(** [http.Header] and [url.Values] are both [map[string][]string]; [Get]
    answers the first value or the empty string. *)
Definition Values_Get (m : gmap string (list string)) (key : string)
  : string :=
  match m !! key with
  | Some (v :: _) => v
  | _ => ""
  end.

Record Request := {
  Method : string;
  URL_Path : string;
  URL_Query : gmap string (list string);
  Header : gmap string (list string);
  Body : string }.

(** What a handler writes to the body: plain bytes, or a value given to a
    [json.Encoder] (its encoding followed by a newline). *)
Inductive Chunk :=
| Bytes (data : string)
| Encoded (v : json).

Record ResponseWriter := {
  header : gmap string (list string);
  status : option nat;
  body : list Chunk }.

Definition StatusOK : nat := 200.
Definition StatusBadRequest : nat := 400.
Definition StatusUnauthorized : nat := 401.
Definition StatusNotFound : nat := 404.
Definition StatusMethodNotAllowed : nat := 405.
Definition StatusInternalServerError : nat := 500.

(** *** The outside world *)

Inductive Arg :=
| ArgStr (s : string)
| ArgInt (n : nat).

(** The calls that [main.go] makes to the outside, in the order they are
    made.  [StoreGetItem] is one call of [dynamoClient.GetItem]; the
    requests that the client library sends for it, its retries included,
    are its own. *)
Inductive Event :=
| Log (format : string) (args : list Arg)
| StoreGetItem (table key : string)
| CmdOutput (argv : list string)
| CmdStart (argv : list string)
| GoStderrLogger
| IoCopy (written : nat)
| CmdWait.

Record URL := { Scheme : string; Host : string }.

(** A started [*exec.Cmd] of [handleStream]: whether its pipes and its
    start succeed, what it prints on its diagnostic stream, what [io.Copy]
    moved to the response before it ended and with which error, and what
    [Wait] answers. *)
Record Cmd := {
  StdoutPipe_err : option error;
  StderrPipe_err : option error;
  Start_err : option error;
  stderr_lines : list string;
  Copy_written : string;
  Copy_err : option error;
  Wait_err : option error }.

(** The package variables set by [init] ([dynamoClient], [tableName]) and
    the library calls whose answers depend on the outside: the JSON
    decoders, [url.Parse], [os.ReadFile] and the two ways [yt-dlp] is
    run. *)
Record World := {
  dynamoClient : option Client;
  tableName : string;
  Decode_AuthRequest : string -> AuthRequest + error;
  Decode_StreamRequest : string -> StreamRequest + error;
  Unmarshal : string -> gmap string json + error;
  url_Parse : string -> URL + error;
  ReadFile : string -> string + error;
  exec_Output : list string -> string + error;
  exec_Command : list string -> Cmd }.

(** ** The handler monad: the response writer and the trace *)

Record State := { w : ResponseWriter; trace : list Event }.

Definition M (A : Type) : Type := State -> A * State.

#[global] Instance M_ret : MRet M := fun A a s => (a, s).
#[global] Instance M_bind : MBind M :=
  fun A B f m s => let '(a, s') := m s in f a s'.

Definition emit (e : Event) : M unit :=
  fun s => (tt, {| w := w s; trace := (trace s ++ [e])%list |}).

Definition modify_w (f : ResponseWriter -> ResponseWriter) : M unit :=
  fun s => (tt, {| w := f (w s); trace := trace s |}).

Definition log_Printf (format : string) (args : list Arg) : M unit :=
  emit (Log format args).

Definition Header_Set (key value : string) : M unit :=
  modify_w (fun rw => {| header := <[key := [value]]> (header rw);
                         status := status rw; body := body rw |}).

Definition Header_Del (key : string) : M unit :=
  modify_w (fun rw => {| header := delete key (header rw);
                         status := status rw; body := body rw |}).

(** Only the first [WriteHeader] counts. *)
Definition WriteHeader (code : nat) : M unit :=
  modify_w (fun rw => {| header := header rw;
                         status := match status rw with
                                   | None => Some code
                                   | Some c => Some c
                                   end;
                         body := body rw |}).

(** [Write] sends the headers with [StatusOK] when none were sent. *)
Definition Write (c : Chunk) : M unit :=
  WriteHeader StatusOK ;; 
  modify_w (fun rw => {| header := header rw; status := status rw;
                         body := (body rw ++ [c])%list |}).

Definition newline : string := String (ascii_of_N 10) "".

(** [http.Error]. *)
Definition http_Error (msg : string) (code : nat) : M unit :=
  Header_Del "Content-Length" ;;
  Header_Set "Content-Type" "text/plain; charset=utf-8" ;;
  Header_Set "X-Content-Type-Options" "nosniff" ;;
  WriteHeader code ;;
  Write (Bytes (msg +:+ newline)).

(** [json.NewEncoder(w).Encode(v)]. *)
Definition Encode (v : json) : M unit := Write (Encoded v).

Definition HandlerFunc := Request -> M unit.

Definition newResponseWriter : ResponseWriter :=
  {| header := ∅; status := None; body := [] |}.

(** Serving a request: the handler runs on a fresh writer; a handler that
    returns without writing anything answers [StatusOK]. *)
Record Response := {
  StatusCode : nat;
  ResponseBody : list Chunk;
  calls : list Event }.

Definition serve (h : HandlerFunc) (r : Request) : Response :=
  let s := snd (h r {| w := newResponseWriter; trace := [] |}) in
  {| StatusCode := default StatusOK (status (w s));
     ResponseBody := body (w s);
     calls := trace s |}.

(** ** main.go *)

(** [initDynamoDB]: the table name comes from the environment variable
    [DYNAMODB_TABLE] with a default; the client stays [nil] when the AWS
    configuration cannot be loaded. *)
Definition initDynamoDB (DYNAMODB_TABLE : string)
    (LoadDefaultConfig : Client + error) : option Client * string :=
  let tableName :=
    if String.eqb DYNAMODB_TABLE "" then "insta-stream-users"
    else DYNAMODB_TABLE in
  match LoadDefaultConfig with
  | inr _ => (None, tableName)
  | inl client => (Some client, tableName)
  end.

Section Handlers.

Context (world : World).

Definition validateCode (code : string) : M (bool * string * option error) :=
  match dynamoClient world with
  | None => mret (true, "Local User", None)
  | Some client =>
    (* Normalize code to uppercase *)
    let code := strings.ToUpper code in
    emit (StoreGetItem (tableName world) code) ;;
    match GetItem client (tableName world) code with
    | inr err => mret (false, "", Some err)
    | inl result =>
      match Item result with
      | None => mret (false, "", None)
      | Some item =>
        (* Extract name from result *)
        let name :=
          match item !! "name" with
          | Some (AttributeValueMemberS v) => v
          | _ => ""
          end in
        mret (true, name, None)
      end
    end
  end.

Definition withAuth (next : HandlerFunc) : HandlerFunc := fun r =>
  (* Skip auth if DynamoDB is not configured (local dev) *)
  match dynamoClient world with
  | None => next r
  | Some _ =>
    (* Get auth code from header *)
    let authCode := Values_Get (Header r) "X-Auth-Code" in
    let authCode :=
      if String.eqb authCode ""
      then (* Also check query param for stream endpoint *)
           Values_Get (URL_Query r) "auth"
      else authCode in
    if String.eqb authCode "" then
      http_Error "Unauthorized: missing auth code" StatusUnauthorized
    else if negb (isValidCodeFormat authCode) then
      http_Error "Unauthorized: invalid auth code format" StatusUnauthorized
    else
      (* Validate against DynamoDB *)
      '(valid, _, err) ← validateCode authCode;
      match err with
      | Some e =>
        log_Printf "Auth validation error: %v" [ArgStr e] ;;
        http_Error "Internal server error" StatusInternalServerError
      | None =>
        if negb valid then
          http_Error "Unauthorized: invalid auth code" StatusUnauthorized
        else next r
      end
  end.

Definition respondAuth (a : AuthResponse) : M unit :=
  Header_Set "Content-Type" "application/json" ;;
  Encode (AuthResponse_json a).

Definition handleAuth : HandlerFunc := fun r =>
  if negb (String.eqb (Method r) "POST") then
    http_Error "Method not allowed" StatusMethodNotAllowed
  else
    match Decode_AuthRequest world (Body r) with
    | inr _ =>
      respondAuth {| Valid := false; Name := "";
                     Error := "Invalid request body" |}
    | inl req =>
      if String.eqb (Code req) "" then
        respondAuth {| Valid := false; Name := "";
                       Error := "Code is required" |}
      else if negb (isValidCodeFormat (Code req)) then
        respondAuth {| Valid := false; Name := "";
                       Error := "Invalid code format. Expected: XXX-XXX" |}
      else
        '(valid, name, err) ← validateCode (Code req);
        match err with
        | Some e =>
          log_Printf "DynamoDB error: %v" [ArgStr e] ;;
          respondAuth {| Valid := false; Name := "";
                         Error := "Failed to validate code" |}
        | None =>
          if negb valid then
            respondAuth {| Valid := false; Name := "";
                           Error := "Invalid code" |}
          else
            respondAuth {| Valid := true; Name := name; Error := "" |}
        end
    end.

Definition serveIndex : HandlerFunc := fun r =>
  if negb (String.eqb (URL_Path r) "/") then
    http_Error "404 page not found" StatusNotFound
  else
    match ReadFile world "static/index.html" with
    | inr err =>
      log_Printf "Error reading index.html: %v" [ArgStr err] ;;
      http_Error "Internal server error" StatusInternalServerError
    | inl content =>
      Header_Set "Content-Type" "text/html; charset=utf-8" ;;
      Write (Bytes content)
    end.

Definition handleVideoInfo : HandlerFunc := fun r =>
  if negb (String.eqb (Method r) "POST") then
    http_Error "Method not allowed" StatusMethodNotAllowed
  else
    match Decode_StreamRequest world (Body r) with
    | inr _ => http_Error "Invalid request body" StatusBadRequest
    | inl req =>
      if String.eqb (StreamRequest_URL req) "" then
        http_Error "URL is required" StatusBadRequest
      else
        (* Validate URL format *)
        match url_Parse world (StreamRequest_URL req) with
        | inr _ => http_Error "Invalid URL format" StatusBadRequest
        | inl parsedURL =>
          if String.eqb (Scheme parsedURL) ""
             || String.eqb (Host parsedURL) "" then
            http_Error "Invalid URL format" StatusBadRequest
          else if negb (String.eqb (Scheme parsedURL) "http")
                  && negb (String.eqb (Scheme parsedURL) "https") then
            http_Error "URL must use http or https scheme" StatusBadRequest
          else if negb (strings.Contains (Host parsedURL) "instagram.com")
          then
            http_Error "URL must be an Instagram URL" StatusBadRequest
          else
            (* Use yt-dlp to get video info (JSON output) *)
            let argv :=
              ["yt-dlp"; "-j"; "--no-warnings"; StreamRequest_URL req] in
            emit (CmdOutput argv) ;;
            match exec_Output world argv with
            | inr err =>
              log_Printf "yt-dlp error: %v" [ArgStr err] ;;
              http_Error "Failed to get video info"
                         StatusInternalServerError
            | inl output =>
              match Unmarshal world output with
              | inr _ =>
                http_Error "Failed to parse video info"
                           StatusInternalServerError
              | inl info =>
                (* Extract the direct video URL *)
                let videoURL := default "" (string_field info "url") in
                let title := default "video" (string_field info "title") in
                let ext := default "mp4" (string_field info "ext") in
                let response :=
                  {| VideoInfo_URL := videoURL; VideoInfo_Title := title;
                     VideoInfo_Extension := ext |} in
                Header_Set "Content-Type" "application/json" ;;
                Encode (VideoInfo_json response)
              end
            end
        end
    end.

Definition handleStream : HandlerFunc := fun r =>
  let instagramURL := Values_Get (URL_Query r) "url" in
  if String.eqb instagramURL "" then
    http_Error "URL parameter is required" StatusBadRequest
  else
    log_Printf "Streaming video from: %s" [ArgStr instagramURL] ;;
    (* Use yt-dlp to output video to stdout *)
    let argv :=
      ["yt-dlp"; "-o"; "-"; "--no-warnings"; "-f"; "best"; instagramURL] in
    let cmd := exec_Command world argv in
    match StdoutPipe_err cmd with
    | Some err =>
      log_Printf "Failed to create stdout pipe: %v" [ArgStr err] ;;
      http_Error "Failed to start download" StatusInternalServerError
    | None =>
      match StderrPipe_err cmd with
      | Some err =>
        log_Printf "Failed to create stderr pipe: %v" [ArgStr err] ;;
        http_Error "Failed to start download" StatusInternalServerError
      | None =>
        emit (CmdStart argv) ;;
        match Start_err cmd with
        | Some err =>
          log_Printf "Failed to start yt-dlp: %v" [ArgStr err] ;;
          http_Error "Failed to start download" StatusInternalServerError
        | None =>
          (* Log stderr in background *)
          emit GoStderrLogger ;;
          (* Set headers for video streaming *)
          Header_Set "Content-Type" "video/mp4" ;;
          Header_Set "Transfer-Encoding" "chunked" ;;
          Header_Set "Cache-Control" "no-cache" ;;
          (* Stream the video directly to the response *)
          let written := String.length (Copy_written cmd) in
          (if String.eqb (Copy_written cmd) "" then mret tt
           else Write (Bytes (Copy_written cmd))) ;;
          emit (IoCopy written) ;;
          match Copy_err cmd with
          | Some err =>
            log_Printf "Error streaming video: %v" [ArgStr err]
          | None =>
            emit CmdWait ;;
            match Wait_err cmd with
            | Some err =>
              log_Printf "yt-dlp process error: %v" [ArgStr err]
            | None => mret tt
            end ;;
            log_Printf "Streamed %d bytes" [ArgInt written]
          end
        end
      end
    end.

(** The routes registered by [init] and by [main]: [/api/auth] without
    the gate, [/api/info] and [/api/stream] behind it, everything else to
    [serveIndex].  This is the dispatch of a request whose path is clean
    ([clean_path] below): [http.ServeMux] answers any other request itself,
    with a redirect to the cleaned path, and then no handler runs. *)
Definition mux : HandlerFunc := fun r =>
  if String.eqb (URL_Path r) "/api/auth" then handleAuth r
  else if String.eqb (URL_Path r) "/api/info" then
    withAuth handleVideoInfo r
  else if String.eqb (URL_Path r) "/api/stream" then
    withAuth handleStream r
  else serveIndex r.

End Handlers.

(** ** Definitions for the statements *)

(** One step of [utf8.decode]: the first rune and the bytes after it
    ([utf8.DecodeRuneInString] with the rest in place of the width). *)
Definition DecodeRune (s : list N) : option (utf8.rune * list N) :=
  match s with
  | [] => None
  | b0 :: t0 =>
    if b0 <? utf8.RuneSelf then Some (b0, t0)
    else
      let invalid := Some (utf8.RuneError, t0) in
      match utf8.first b0 with
      | None => invalid
      | Some (size, lo, hi) =>
        match t0 with
        | [] => invalid
        | b1 :: t1 =>
          if negb (utf8.between lo hi b1) then invalid
          else if size =? 2 then Some ((b0 mod 32) * 64 + b1 mod 64, t1)
          else
            match t1 with
            | [] => invalid
            | b2 :: t2 =>
              if negb (utf8.between 0x80 0xBF b2) then invalid
              else if size =? 3 then
                Some ((b0 mod 16) * 4096 + (b1 mod 64) * 64 + b2 mod 64, t2)
              else
                match t2 with
                | [] => invalid
                | b3 :: t3 =>
                  if negb (utf8.between 0x80 0xBF b3) then invalid
                  else
                    Some ((b0 mod 8) * 262144 + (b1 mod 64) * 4096
                          + (b2 mod 64) * 64 + b3 mod 64, t3)
                end
            end
        end
      end
  end.

(** What [utf8.encode] writes for a rune: the rune itself when it is a
    Unicode scalar value, [RuneError] otherwise. *)
Definition scalar (r : utf8.rune) : utf8.rune :=
  if (utf8.MaxRune <? r) || utf8.between utf8.surrogateMin utf8.surrogateMax r
  then utf8.RuneError else r.

(** [[A-Za-z0-9]] on a byte. *)
Definition alnum (b : N) : bool :=
  utf8.between 0x41 0x5A b || utf8.between 0x61 0x7A b
  || utf8.between 0x30 0x39 b.

(** The pattern of the specification, [[A-Za-z0-9]{3}-[A-Za-z0-9]{3}], on
    the bytes of a string. *)
Definition spec_code_pattern (s : string) : bool :=
  match utf8.bytes s with
  | [a; b; c; h; d; e; f] =>
    alnum a && alnum b && alnum c && (h =? 0x2D)
    && alnum d && alnum e && alnum f
  | _ => false
  end.

Definition is_ascii (s : string) : bool :=
  forallb (fun b => b <? 0x80) (utf8.bytes s).

(** A unit of an accepted code: one byte of [[A-Za-z0-9]], or the two bytes
    of U+0131 or of U+017F.  [strip_unit] takes one unit off the front. *)
Definition strip_unit (bs : list N) : option (list N) :=
  match bs with
  | [] => None
  | b0 :: t0 =>
    if alnum b0 then Some t0
    else
      match t0 with
      | [] => None
      | b1 :: t1 =>
        if ((b0 =? 0xC4) && (b1 =? 0xB1)) || ((b0 =? 0xC5) && (b1 =? 0xBF))
        then Some t1 else None
      end
  end.

Definition strip_hyphen (bs : list N) : option (list N) :=
  match bs with
  | b0 :: t0 => if b0 =? 0x2D then Some t0 else None
  | [] => None
  end.

Fixpoint strip_all (ps : list (list N -> option (list N))) (bs : list N)
  : option (list N) :=
  match ps with
  | [] => Some bs
  | p :: ps' =>
    match p bs with
    | Some rest => strip_all ps' rest
    | None => None
    end
  end.

(** Three units, a hyphen, three units, and nothing after them. *)
Definition code_shape (s : string) : bool :=
  match
    strip_all [strip_unit; strip_unit; strip_unit; strip_hyphen;
               strip_unit; strip_unit; strip_unit] (utf8.bytes s)
  with
  | Some [] => true
  | _ => false
  end.

(** U+017F and U+0131 as Go strings. *)
Definition long_s : string := utf8.of_bytes [0xC5; 0xBF].
Definition dotless_i : string := utf8.of_bytes [0xC4; 0xB1].

(** The code presented to the gate: the header [X-Auth-Code], or the query
    parameter [auth] when the header is empty. *)
Definition presentedCode (r : Request) : string :=
  if String.eqb (Values_Get (Header r) "X-Auth-Code") ""
  then Values_Get (URL_Query r) "auth"
  else Values_Get (Header r) "X-Auth-Code".

(** The display name of a store record: its [name] attribute when that is a
    string, the empty string otherwise. *)
Definition display_name (item : gmap string AttributeValue) : string :=
  match item !! "name" with
  | Some (AttributeValueMemberS v) => v
  | _ => ""
  end.

(** A URL that the metadata endpoint must refuse. *)
Definition rejected_url (world : World) (u : string) : Prop :=
  match url_Parse world u with
  | inr _ => True
  | inl p =>
    Scheme p = "" \/ Host p = "" \/
    (Scheme p <> "http" /\ Scheme p <> "https") \/
    strings.Contains (Host p) "instagram.com" = false
  end.

(** The calls that start a subprocess. *)
Definition spawns (e : Event) : bool :=
  match e with
  | CmdOutput _ | CmdStart _ => true
  | _ => false
  end.

Definition client_error (code : nat) : Prop := (400 <= code < 500)%nat.

(** The messages that [handleAuth] puts in the envelope. *)
Definition auth_errors : list string :=
  ["Invalid request body"; "Code is required";
   "Invalid code format. Expected: XXX-XXX"; "Failed to validate code";
   "Invalid code"].

(** *** Concrete worlds for the examples *)

Definition quoted (s : string) : string :=
  String (ascii_of_N 34) s +:+ String (ascii_of_N 34) "".

(** The JSON text of an object with one string member. *)
Definition object1 (key value : string) : string :=
  "{" +:+ quoted key +:+ ":" +:+ quoted value +:+ "}".

(** A library call that knows the listed inputs and fails on the others. *)
Definition answers {A : Type} (table : gmap string A) (input : string)
  : A + error :=
  match table !! input with
  | Some a => inl a
  | None => inr "unexpected input"
  end.

(** A store holding the given records, and a store that cannot be
    reached. *)
Definition tableClient (records : gmap string (gmap string AttributeValue))
  : Client :=
  {| GetItem := fun _ key => inl {| Item := records !! key |} |}.

Definition unreachableClient : Client :=
  {| GetItem := fun _ _ => inr "dial tcp: i/o timeout" |}.

Definition adaRecord : gmap string AttributeValue :=
  {[ "code" := AttributeValueMemberS "XYZ-789";
     "name" := AttributeValueMemberS "Ada" ]}.

Definition adaRecords : gmap string (gmap string AttributeValue) :=
  {[ "XYZ-789" := adaRecord ]}.

Definition reelURL : string := "https://www.instagram.com/reel/abc/".
Definition foreignURL : string := "https://example.com/video".

(** A subprocess that writes three bytes and exits with status 0, and one
    whose copy loop is cut by the client going away. *)
Definition finishedCmd : Cmd :=
  {| StdoutPipe_err := None; StderrPipe_err := None; Start_err := None;
     stderr_lines := []; Copy_written := "abc"; Copy_err := None;
     Wait_err := None |}.

Definition disconnectedCmd : Cmd :=
  {| StdoutPipe_err := None; StderrPipe_err := None; Start_err := None;
     stderr_lines := []; Copy_written := "abc";
     Copy_err := Some "write tcp: broken pipe";
     Wait_err := Some "signal: broken pipe" |}.

Definition exampleWorld (client : option Client) (cmd : Cmd) : World :=
  {| dynamoClient := client;
     tableName := "insta-stream-users";
     Decode_AuthRequest :=
       answers {[ object1 "code" "xyz-789" := {| Code := "xyz-789" |};
                  object1 "code" "XYZ-000" := {| Code := "XYZ-000" |};
                  object1 "code" "nope" := {| Code := "nope" |};
                  object1 "code" "" := {| Code := "" |} ]};
     Decode_StreamRequest :=
       answers {[ object1 "url" reelURL := {| StreamRequest_URL := reelURL |};
                  object1 "url" foreignURL :=
                    {| StreamRequest_URL := foreignURL |} ]};
     Unmarshal :=
       answers {[ object1 "title" "t1" := {[ "title" := JString "t1" ]} ]};
     url_Parse :=
       answers {[ reelURL := {| Scheme := "https";
                                Host := "www.instagram.com" |};
                  foreignURL := {| Scheme := "https";
                                   Host := "example.com" |} ]};
     ReadFile := fun _ => inr "open static/index.html: no such file";
     exec_Output := fun _ => inl (object1 "title" "t1");
     exec_Command := fun _ => cmd |}.

Definition post (path body : string) : Request :=
  {| Method := "POST"; URL_Path := path; URL_Query := ∅; Header := ∅;
     Body := body |}.

Definition postWithCode (path body code : string) : Request :=
  {| Method := "POST"; URL_Path := path; URL_Query := ∅;
     Header := {[ "X-Auth-Code" := [code] ]}; Body := body |}.

Definition getStream (url : string) : Request :=
  {| Method := "GET"; URL_Path := "/api/stream";
     URL_Query := {[ "url" := [url] ]}; Header := ∅; Body := "" |}.


(** The envelopes of [/api/auth] as the client reads them: a refusal is
    the object [{"valid":false,"error":msg}], an acceptance is
    [{"valid":true}] with the member [name] when the name is not empty. *)
Definition refusal (msg : string) : json :=
  JObject [("valid", JBool false); ("error", JString msg)].

Definition acceptance (name : string) : json :=
  JObject (("valid", JBool true)
           :: if String.eqb name "" then [] else [("name", JString name)]).

(** An answer with status 200 whose body is one JSON value. *)
Definition ok_json (j : json) (log : list Event) : Response :=
  {| StatusCode := StatusOK; ResponseBody := [Encoded j]; calls := log |}.

(** ** Definitions for the further properties *)

(** [[A-Z0-9]] on a byte, and the canonical form of a code: three such
    bytes, a hyphen, three such bytes, and nothing else. *)
Definition upper_digit (b : N) : bool :=
  utf8.between 0x41 0x5A b || utf8.between 0x30 0x39 b.

Definition strip_upper (bs : list N) : option (list N) :=
  match bs with
  | b0 :: t0 => if upper_digit b0 then Some t0 else None
  | [] => None
  end.

Definition canonical_code (k : string) : bool :=
  match
    strip_all [strip_upper; strip_upper; strip_upper; strip_hyphen;
               strip_upper; strip_upper; strip_upper] (utf8.bytes k)
  with
  | Some [] => true
  | _ => false
  end.

(** Upper case byte by byte, for a code made of ASCII bytes only. *)
Definition asciiUpper (s : string) : string :=
  utf8.of_bytes
    (map (fun b => if utf8.between 0x61 0x7A b then b - 0x20 else b)
         (utf8.bytes s)).

(** [obj[key]] on an encoded object. *)
Definition member (key : string) (v : json) : option json :=
  match v with
  | JObject fields =>
    snd <$> List.find (fun kv => String.eqb (fst kv) key) fields
  | _ => None
  end.

(** The response writer a handler leaves behind. *)
Definition served (h : HandlerFunc) (r : Request) : ResponseWriter :=
  w (snd (h r {| w := newResponseWriter; trace := [] |})).

(** The command line of [handleStream]. *)
Definition streamArgv (r : Request) : list string :=
  ["yt-dlp"; "-o"; "-"; "--no-warnings"; "-f"; "best";
   Values_Get (URL_Query r) "url"].

(** What [handleStream] has sent once the subprocess runs: the bytes that
    [io.Copy] moved, or nothing. *)
Definition forwarded (cmd : Cmd) : list Chunk :=
  if String.eqb (Copy_written cmd) "" then [] else [Bytes (Copy_written cmd)].

(** *** The goroutine on the diagnostic stream *)

(** [bufio.MaxScanTokenSize]. *)
Definition MaxScanTokenSize : N := 65536.

Definition lf : ascii := ascii_of_N 10.
Definition cr : ascii := ascii_of_N 13.

(** [dropCR]: a token loses one carriage return at its end. *)
Fixpoint dropCR (data : string) : string :=
  match data with
  | EmptyString => EmptyString
  | String c EmptyString => if Ascii.eqb c cr then EmptyString else data
  | String c rest => String c (dropCR rest)
  end.

(** [scanner.Scan] with [bufio.ScanLines], called until it answers false,
    over the bytes [data] that the pipe still delivers; [held] is the
    unfinished line in the buffer and [n] its length.  A line feed ends the
    line, which is the next token without its carriage return; an
    unfinished line that fills the buffer of [MaxScanTokenSize] bytes ends
    the scan ([ErrTooLong]); when the pipe ends, the bytes held, if any,
    are the last token. *)
Fixpoint Scan (data held : string) (n : N) : list string :=
  match data with
  | EmptyString => if n =? 0 then [] else [dropCR held]
  | String c rest =>
    if Ascii.eqb c lf then dropCR held :: Scan rest "" 0
    else if MaxScanTokenSize <=? n + 1 then []
    else Scan rest (held +:+ String c "") (n + 1)
  end.

(** The values of [scanner.Text()] in the loop of the goroutine, for the
    bytes it reads from the pipe. *)
Definition Scanner_Text (read : string) : list string := Scan read "" 0.

(** The goroutine that [handleStream] starts ([GoStderrLogger] in its
    trace), as a function of the bytes it reads from the pipe of the
    diagnostic stream before the pipe ends or is closed ([Wait] closes it):
    every scanned line without the progress marker goes to the log.  For a
    subprocess whose lines [stderr_lines] are read to the end, these bytes
    are [unlines] of them.  The goroutine runs beside the handler, so its
    lines are not part of the handler's own trace. *)
Definition stderrLogger (read : string) : list Event :=
  map (fun line => Log "yt-dlp: %s" [ArgStr line])
      (List.filter (fun line => negb (strings.Contains line "[download]"))
                   (Scanner_Text read)).

(** For the statements: the length in bytes, a line without line feed, and
    lines written one after the other, each ended by a line feed. *)
Definition len (s : string) : N := N.of_nat (String.length s).

Fixpoint no_lf (s : string) : bool :=
  match s with
  | EmptyString => true
  | String c rest => negb (Ascii.eqb c lf) && no_lf rest
  end.

Fixpoint unlines (lines : list string) : string :=
  match lines with
  | [] => ""
  | l :: rest => l +:+ String lf (unlines rest)
  end.

(** *** Paths *)

Definition is_dot (element : string) : bool :=
  String.eqb element "." || String.eqb element "..".

(** The elements of a path after its first slash: none is empty, [.] or
    [..], except that the last one may be empty (a path that ends in a
    slash, or the root). *)
Fixpoint clean_elements (rest element : string) : bool :=
  match rest with
  | EmptyString => negb (is_dot element)
  | String c rest' =>
    if Ascii.eqb c "/"%char
    then negb (String.eqb element "" || is_dot element)
         && clean_elements rest' ""
    else clean_elements rest' (element +:+ String c "")
  end.

(** A path that [http.ServeMux] hands to the handlers as it is: its
    [cleanPath] leaves it unchanged.  Any other path is answered by the
    mux itself with a redirect to the cleaned path, and no handler runs. *)
Definition clean_path (p : string) : bool :=
  match p with
  | EmptyString => false
  | String c rest => Ascii.eqb c "/"%char && clean_elements rest ""
  end.

(** [init]: the package variables are what [initDynamoDB] leaves, the
    library calls are those of the process. *)
Definition initWorld (DYNAMODB_TABLE : string)
    (LoadDefaultConfig : Client + error) (process : World) : World :=
  {| dynamoClient := fst (initDynamoDB DYNAMODB_TABLE LoadDefaultConfig);
     tableName := snd (initDynamoDB DYNAMODB_TABLE LoadDefaultConfig);
     Decode_AuthRequest := Decode_AuthRequest process;
     Decode_StreamRequest := Decode_StreamRequest process;
     Unmarshal := Unmarshal process;
     url_Parse := url_Parse process;
     ReadFile := ReadFile process;
     exec_Output := exec_Output process;
     exec_Command := exec_Command process |}.

(** *** Counting the calls of a request *)

Definition is_lookup (e : Event) : bool :=
  match e with
  | StoreGetItem _ _ => true
  | _ => false
  end.

Definition count (p : Event -> bool) (log : list Event) : nat :=
  List.length (List.filter p log).

Definition statusCodes : list nat :=
  [StatusOK; StatusBadRequest; StatusUnauthorized; StatusNotFound;
   StatusMethodNotAllowed; StatusInternalServerError].

(** A store lookup as the handlers make it: in the configured table, under
    a canonical code. *)
Definition lookup_ok (world : World) (e : Event) : Prop :=
  match e with
  | StoreGetItem table key =>
    table = tableName world /\ canonical_code key = true
  | _ => True
  end.

Definition status_ok (s : State) : Prop :=
  In (default StatusOK (status (w s))) statusCodes.

(** What a computation may cost: it only appends to the trace, at most
    [nl] lookups (each well-formed) and [ns] subprocess starts, and it
    keeps the status among the codes of the service. *)
Definition within {A : Type} (world : World) (nl ns : nat) (m : M A)
  : Prop :=
  forall s, status_ok s ->
    exists t,
      trace (snd (m s)) = (trace s ++ t)%list /\
      (count is_lookup t <= nl)%nat /\ (count spawns t <= ns)%nat /\
      Forall (lookup_ok world) t /\
      status_ok (snd (m s)).

(** *** Further worlds and requests for the examples *)

Definition getStreamWithAuth (url code : string) : Request :=
  {| Method := "GET"; URL_Path := "/api/stream";
     URL_Query := {[ "url" := [url]; "auth" := [code] ]}; Header := ∅;
     Body := "" |}.

Definition getStreamWithBoth (url header query : string) : Request :=
  {| Method := "GET"; URL_Path := "/api/stream";
     URL_Query := {[ "url" := [url]; "auth" := [query] ]};
     Header := {[ "X-Auth-Code" := [header] ]}; Body := "" |}.

Definition getPath (path : string) : Request :=
  {| Method := "GET"; URL_Path := path; URL_Query := ∅; Header := ∅;
     Body := "" |}.

(** A subprocess that exits with status 1 after two bytes, and one that
    cannot be started. *)
Definition crashedCmd : Cmd :=
  {| StdoutPipe_err := None; StderrPipe_err := None; Start_err := None;
     stderr_lines := ["ERROR: unable to download video data"];
     Copy_written := "ab"; Copy_err := None;
     Wait_err := Some "exit status 1" |}.

Definition missingToolCmd : Cmd :=
  {| StdoutPipe_err := None; StderrPipe_err := None;
     Start_err := Some "exec: yt-dlp: executable file not found";
     stderr_lines := []; Copy_written := ""; Copy_err := None;
     Wait_err := None |}.

Definition withTool (world : World) (run : list string -> string + error)
  : World :=
  {| dynamoClient := dynamoClient world; tableName := tableName world;
     Decode_AuthRequest := Decode_AuthRequest world;
     Decode_StreamRequest := Decode_StreamRequest world;
     Unmarshal := Unmarshal world; url_Parse := url_Parse world;
     ReadFile := ReadFile world; exec_Output := run;
     exec_Command := exec_Command world |}.

Definition withIndex (world : World) (content : string) : World :=
  {| dynamoClient := dynamoClient world; tableName := tableName world;
     Decode_AuthRequest := Decode_AuthRequest world;
     Decode_StreamRequest := Decode_StreamRequest world;
     Unmarshal := Unmarshal world; url_Parse := url_Parse world;
     ReadFile := fun _ => inl content; exec_Output := exec_Output world;
     exec_Command := exec_Command world |}.

(** A host that only contains the platform's domain. *)
Definition lookalikeURL : string :=
  "https://instagram.com.example.net/reel/abc/".

Definition lookalikeWorld : World :=
  {| dynamoClient := None;
     tableName := "insta-stream-users";
     Decode_AuthRequest := answers ∅;
     Decode_StreamRequest :=
       answers {[ object1 "url" lookalikeURL :=
                    {| StreamRequest_URL := lookalikeURL |} ]};
     Unmarshal := answers ∅;
     url_Parse :=
       answers {[ lookalikeURL := {| Scheme := "https";
                                     Host := "instagram.com.example.net" |} ]};
     ReadFile := fun _ => inr "open static/index.html: no such file";
     exec_Output := fun _ => inr "exit status 1";
     exec_Command := fun _ => finishedCmd |}.

(** ** Strings: UTF-8, upper case and the code pattern *)

Ltac bool_to_prop :=
  repeat match goal with
  | H : _ && _ = true |- _ => apply andb_true_iff in H; destruct H
  | H : _ || _ = false |- _ => apply orb_false_iff in H; destruct H
  | H : _ && _ = false |- _ => apply andb_false_iff in H; destruct H
  | H : _ || _ = true |- _ => apply orb_true_iff in H; destruct H
  | H : negb _ = true |- _ => apply negb_true_iff in H
  | H : negb _ = false |- _ => apply negb_false_iff in H
  | H : (_ <=? _) = true |- _ => apply N.leb_le in H
  | H : (_ <=? _) = false |- _ => apply N.leb_gt in H
  | H : (_ <? _) = true |- _ => apply N.ltb_lt in H
  | H : (_ <? _) = false |- _ => apply N.ltb_ge in H
  | H : (_ =? _) = true |- _ => apply N.eqb_eq in H
  | H : (_ =? _) = false |- _ => apply N.eqb_neq in H
  end.

(** Case analysis on the first test of the goal, dropping the cases that
    the collected bounds exclude. *)
Ltac split_if :=
  match goal with
  | |- context [if ?c then _ else _] =>
    lazymatch c with
    | context [if _ then _ else _] => fail
    | _ => destruct c eqn:?
    end
  end; bool_to_prop; try lia.

(** An equation between tests on numbers, by arithmetic. *)
Ltac bool_eq_lia :=
  apply Bool.eq_iff_eq_true;
  rewrite ?orb_true_iff, ?andb_true_iff, ?N.leb_le, ?N.ltb_lt, ?N.eqb_eq;
  lia.

Lemma decode_unfold (s : list N) :
  utf8.decode s =
  match DecodeRune s with
  | None => []
  | Some (r, rest) => r :: utf8.decode rest
  end.
Proof.
  destruct s as [|b0 t0]; [reflexivity|].
  cbn [utf8.decode DecodeRune].
  repeat case_match; reflexivity.
Qed.

Lemma encode_bound (r : utf8.rune) :
  Forall (fun b => b < 256) (utf8.encode r).
Proof.
  unfold utf8.encode, utf8.encode3, utf8.between, utf8.RuneSelf, utf8.MaxRune,
    utf8.surrogateMin, utf8.surrogateMax, utf8.RuneError.
  repeat split_if; repeat constructor; lia.
Qed.

Lemma DecodeRune_encode (r : utf8.rune) (rest : list N) :
  DecodeRune (utf8.encode r ++ rest) = Some (scalar r, rest).
Proof.
  unfold utf8.encode, utf8.encode3, scalar, utf8.between, utf8.RuneSelf,
    utf8.MaxRune, utf8.surrogateMin, utf8.surrogateMax, utf8.RuneError.
  repeat split_if; cbn [app DecodeRune];
    unfold utf8.first, utf8.between, utf8.RuneSelf.
  all: repeat split_if.
  all: try (f_equal; f_equal; lia).
Qed.

Lemma bytes_of_bytes (l : list N) :
  Forall (fun b => b < 256) l -> utf8.bytes (utf8.of_bytes l) = l.
Proof.
  unfold utf8.bytes, utf8.of_bytes.
  rewrite list_ascii_of_string_of_list_ascii.
  induction 1 as [|b l Hb _ IH]; [reflexivity|].
  cbn [map]. rewrite IH, N_ascii_embedding by exact Hb. reflexivity.
Qed.

Lemma decode_encode_all (f : utf8.rune -> utf8.rune) (rs : list utf8.rune) :
  utf8.decode (flat_map (fun c => utf8.encode (f c)) rs)
  = map (fun c => scalar (f c)) rs.
Proof.
  induction rs as [|r rs IH]; [reflexivity|].
  cbn [flat_map map].
  rewrite decode_unfold, DecodeRune_encode, IH. reflexivity.
Qed.

Lemma encode_all_bound (f : utf8.rune -> utf8.rune) (rs : list utf8.rune) :
  Forall (fun b => b < 256) (flat_map (fun c => utf8.encode (f c)) rs).
Proof.
  induction rs as [|r rs IH]; [constructor|].
  cbn [flat_map]. apply Forall_app. split; [apply encode_bound | exact IH].
Qed.

(** Matching the image of [strings.Map] is matching the mapped runes. *)
Lemma MatchString_Map (p : list regexp.class) (f : utf8.rune -> utf8.rune)
    (s : string) :
  regexp.MatchString p (strings.Map f s)
  = regexp.match_runes p
      (map (fun c => scalar (f c)) (utf8.decode (utf8.bytes s))).
Proof.
  unfold regexp.MatchString, strings.Map.
  rewrite bytes_of_bytes by apply encode_all_bound.
  rewrite decode_encode_all. reflexivity.
Qed.

Lemma upperOrDigit_ToUpper (r : utf8.rune) :
  regexp.in_class upperOrDigit (scalar (unicode.ToUpper r))
  = alnum r || (r =? 0x131) || (r =? 0x17F).
Proof.
  unfold regexp.in_class, upperOrDigit, existsb, scalar, unicode.ToUpper,
    unicode.To_UpperCase, unicode.MaxASCII, alnum, utf8.between, utf8.MaxRune,
    utf8.surrogateMin, utf8.surrogateMax, utf8.RuneError.
  repeat split_if; bool_eq_lia.
Qed.

Lemma hyphen_ToUpper (r : utf8.rune) :
  regexp.in_class hyphen (scalar (unicode.ToUpper r)) = (r =? 0x2D).
Proof.
  unfold regexp.in_class, hyphen, existsb, scalar, unicode.ToUpper,
    unicode.To_UpperCase, unicode.MaxASCII, utf8.between, utf8.MaxRune,
    utf8.surrogateMin, utf8.surrogateMax, utf8.RuneError.
  repeat split_if; bool_eq_lia.
Qed.

Lemma first_cases (b0 size lo hi : N) :
  utf8.first b0 = Some (size, lo, hi) ->
  0x80 <= lo /\ hi <= 0xBF /\
  ((size = 2 /\ 0xC2 <= b0 <= 0xDF) \/
   (size = 3 /\ 0xE0 <= b0 <= 0xEF /\ (b0 = 0xE0 -> lo = 0xA0)) \/
   (size = 4 /\ 0xF0 <= b0 <= 0xF4 /\ (b0 = 0xF0 -> lo = 0x90))).
Proof.
  unfold utf8.first, utf8.between.
  repeat split_if; intros [= <- <- <-]; lia.
Qed.

Lemma DecodeRune_ascii (b0 : N) (t0 : list N) :
  b0 < 0x80 -> DecodeRune (b0 :: t0) = Some (b0, t0).
Proof.
  intros H. cbn [DecodeRune]. unfold utf8.RuneSelf.
  apply N.ltb_lt in H. rewrite H. reflexivity.
Qed.

(** A sequence that starts above ASCII decodes to a rune above ASCII; the
    runes below U+0800 come from two bytes. *)
Lemma DecodeRune_high (b0 : N) (t0 : list N) :
  0x80 <= b0 ->
  exists r rest,
    DecodeRune (b0 :: t0) = Some (r, rest) /\ 0x80 <= r /\
    (r < 0x800 ->
     exists b1, t0 = b1 :: rest /\ r = (b0 mod 32) * 64 + b1 mod 64 /\
                0xC2 <= b0 <= 0xDF /\ 0x80 <= b1 <= 0xBF).
Proof.
  intros H. cbn [DecodeRune]. unfold utf8.RuneSelf, utf8.RuneError.
  apply N.ltb_ge in H. rewrite H. apply N.ltb_ge in H.
  assert (Herr : forall rest : list N, exists r rest',
    Some (65533, rest) = Some (r, rest') /\ 0x80 <= r /\
    (r < 0x800 ->
     exists b1, t0 = b1 :: rest' /\ r = (b0 mod 32) * 64 + b1 mod 64 /\
                0xC2 <= b0 <= 0xDF /\ 0x80 <= b1 <= 0xBF)).
  { intros rest. exists 65533, rest. repeat split; lia. }
  destruct (utf8.first b0) as [[[size lo] hi]|] eqn:F; [|apply Herr].
  apply first_cases in F. destruct F as (Hlo & Hhi & F).
  destruct t0 as [|b1 t1]; [apply Herr|].
  unfold utf8.between.
  destruct (negb _) eqn:B1; [apply Herr|]. bool_to_prop.
  destruct F as [(-> & F)|[(-> & F & F')|(-> & F & F')]]; cbn [N.eqb Pos.eqb].
  - eexists _, _. split; [reflexivity|]. split; [lia|].
    intros _. exists b1. repeat split; lia.
  - destruct t1 as [|b2 t2]; [apply Herr|].
    destruct (negb _) eqn:B2; [apply Herr|]. bool_to_prop.
    eexists _, _. split; [reflexivity|]. split; lia.
  - destruct t1 as [|b2 t2]; [apply Herr|].
    destruct (negb _) eqn:B2; [apply Herr|]. bool_to_prop.
    destruct t2 as [|b3 t3]; [apply Herr|].
    destruct (negb _) eqn:B3; [apply Herr|]. bool_to_prop.
    eexists _, _. split; [reflexivity|]. split; lia.
Qed.

Lemma strip_unit_decode (bs : list N) :
  strip_unit bs =
  match DecodeRune bs with
  | Some (r, rest) =>
    if alnum r || (r =? 0x131) || (r =? 0x17F) then Some rest else None
  | None => None
  end.
Proof.
  destruct bs as [|b0 t0]; [reflexivity|].
  cbn [strip_unit].
  destruct (N.lt_ge_cases b0 0x80) as [Hb0|Hb0].
  - rewrite DecodeRune_ascii by exact Hb0.
    replace (b0 =? 0x131) with false by (symmetry; apply N.eqb_neq; lia).
    replace (b0 =? 0x17F) with false by (symmetry; apply N.eqb_neq; lia).
    replace (b0 =? 0xC4) with false by (symmetry; apply N.eqb_neq; lia).
    replace (b0 =? 0xC5) with false by (symmetry; apply N.eqb_neq; lia).
    rewrite !orb_false_r.
    destruct (alnum b0), t0; reflexivity.
  - destruct (DecodeRune_high b0 t0 Hb0) as (r & rest & HD & Hr & H2).
    rewrite HD.
    assert (Ha : forall x, 0x80 <= x -> alnum x = false).
    { intros x Hx. unfold alnum, utf8.between.
      repeat (apply orb_false_intro || apply andb_false_intro2);
        apply N.leb_gt; lia. }
    rewrite !Ha by assumption. cbn [orb].
    destruct ((r =? 0x131) || (r =? 0x17F)) eqn:E; bool_to_prop.
    + destruct H2 as (b1 & -> & H2 & ? & ?); [lia|].
      assert (b0 = 0xC4 /\ b1 = 0xB1) as [-> ->] by lia. reflexivity.
    + destruct H2 as (b1 & -> & H2 & ? & ?); [lia|].
      assert (b0 = 0xC5 /\ b1 = 0xBF) as [-> ->] by lia. reflexivity.
    + destruct t0 as [|b1 t1]; [reflexivity|].
      destruct (_ || _) eqn:E; [|reflexivity]. exfalso.
      bool_to_prop; subst; vm_compute in HD; congruence.
Qed.

Lemma strip_hyphen_decode (bs : list N) :
  strip_hyphen bs =
  match DecodeRune bs with
  | Some (r, rest) => if r =? 0x2D then Some rest else None
  | None => None
  end.
Proof.
  destruct bs as [|b0 t0]; [reflexivity|].
  cbn [strip_hyphen].
  destruct (N.lt_ge_cases b0 0x80) as [Hb0|Hb0].
  - rewrite DecodeRune_ascii by exact Hb0. reflexivity.
  - destruct (DecodeRune_high b0 t0 Hb0) as (r & rest & -> & Hr & _).
    replace (b0 =? 0x2D) with false by (symmetry; apply N.eqb_neq; lia).
    replace (r =? 0x2D) with false by (symmetry; apply N.eqb_neq; lia).
    reflexivity.
Qed.

Lemma decode_nil (bs : list N) : utf8.decode bs = [] -> bs = [].
Proof.
  destruct bs as [|b0 t0]; [reflexivity|].
  rewrite decode_unfold.
  destruct (N.lt_ge_cases b0 0x80) as [Hb0|Hb0].
  - rewrite DecodeRune_ascii by exact Hb0. discriminate.
  - destruct (DecodeRune_high b0 t0 Hb0) as (r & rest & -> & _). discriminate.
Qed.

(** A pattern and a list of strippers that agree class by class accept the
    same byte sequences. *)
Lemma match_runes_strip_all (g : utf8.rune -> utf8.rune)
    (ps : list (regexp.class * (list N -> option (list N)))) :
  Forall (fun '(c, p) => forall bs,
            p bs = match DecodeRune bs with
                   | Some (r, rest) =>
                     if regexp.in_class c (g r) then Some rest else None
                   | None => None
                   end) ps ->
  forall bs,
    regexp.match_runes (map fst ps) (map g (utf8.decode bs))
    = match strip_all (map snd ps) bs with
      | Some [] => true
      | _ => false
      end.
Proof.
  induction 1 as [|[c p] ps Hp _ IH]; intros bs.
  - cbn [map regexp.match_runes strip_all].
    destruct (utf8.decode bs) eqn:E.
    + apply decode_nil in E. subst. reflexivity.
    + destruct bs; [discriminate|reflexivity].
  - cbn [map fst snd regexp.match_runes strip_all].
    rewrite Hp, decode_unfold.
    destruct (DecodeRune bs) as [[r rest]|]; [|reflexivity].
    cbn [map]. destruct (regexp.in_class c (g r)); [apply IH | reflexivity].
Qed.

Lemma isValidCodeFormat_code_shape (s : string) :
  isValidCodeFormat s = code_shape s.
Proof.
  unfold isValidCodeFormat, strings.ToUpper, code_shape.
  rewrite MatchString_Map.
  set (g := fun c => scalar (unicode.ToUpper c)).
  apply (match_runes_strip_all g
           [(upperOrDigit, strip_unit); (upperOrDigit, strip_unit);
            (upperOrDigit, strip_unit); (hyphen, strip_hyphen);
            (upperOrDigit, strip_unit); (upperOrDigit, strip_unit);
            (upperOrDigit, strip_unit)]).
  assert (Hu : forall bs,
    strip_unit bs = match DecodeRune bs with
                    | Some (r, rest) =>
                      if regexp.in_class upperOrDigit (g r)
                      then Some rest else None
                    | None => None
                    end).
  { intros bs. rewrite strip_unit_decode.
    destruct (DecodeRune bs) as [[r rest]|]; [|reflexivity].
    unfold g. rewrite upperOrDigit_ToUpper. reflexivity. }
  assert (Hh : forall bs,
    strip_hyphen bs = match DecodeRune bs with
                      | Some (r, rest) =>
                        if regexp.in_class hyphen (g r)
                        then Some rest else None
                      | None => None
                      end).
  { intros bs. rewrite strip_hyphen_decode.
    destruct (DecodeRune bs) as [[r rest]|]; [|reflexivity].
    unfold g. rewrite hyphen_ToUpper. reflexivity. }
  repeat constructor; assumption.
Qed.

(** On ASCII bytes a unit is one byte of [[A-Za-z0-9]]. *)
Lemma code_shape_ascii (s : string) :
  is_ascii s = true -> code_shape s = spec_code_pattern s.
Proof.
  unfold is_ascii, code_shape, spec_code_pattern.
  generalize (utf8.bytes s) as bs. intros bs H.
  assert (Hu : forall b t, b < 0x80 ->
            strip_unit (b :: t) = if alnum b then Some t else None).
  { intros b t Hb. cbn [strip_unit].
    replace (b =? 0xC4) with false by (symmetry; apply N.eqb_neq; lia).
    replace (b =? 0xC5) with false by (symmetry; apply N.eqb_neq; lia).
    cbn [andb orb]. destruct (alnum b), t; reflexivity. }
  destruct bs as [|b1 [|b2 [|b3 [|b4 [|b5 [|b6 [|b7 [|b8 bs]]]]]]]];
    cbn [forallb] in H;
    repeat (apply andb_true_iff in H; destruct H as [?%N.ltb_lt H]);
    repeat first
      [ progress cbn [strip_all strip_hyphen andb]
      | rewrite Hu by assumption
      | match goal with
        | E : alnum ?b = _ |- context [alnum ?b] => rewrite E
        | |- context [alnum ?b] => destruct (alnum b) eqn:?
        | |- context [?b =? 0x2D] => destruct (b =? 0x2D)
        end ];
    reflexivity.
Qed.

Lemma alnum_ascii (b : N) : alnum b = true -> b < 0x80.
Proof.
  unfold alnum, utf8.between. intros H. bool_to_prop; lia.
Qed.

Lemma spec_code_pattern_ascii (s : string) :
  spec_code_pattern s = true -> is_ascii s = true.
Proof.
  unfold spec_code_pattern, is_ascii.
  destruct (utf8.bytes s) as [|b1 [|b2 [|b3 [|b4 [|b5 [|b6 [|b7 [|b8 bs]]]]]]]];
    try discriminate.
  intros H. repeat (apply andb_true_iff in H; destruct H as [H ?]).
  cbn [forallb].
  repeat (apply andb_true_intro; split); try reflexivity;
    apply N.ltb_lt; try (apply alnum_ascii; assumption).
  apply N.eqb_eq in H3. lia.
Qed.

(** C4, as the claim states it, fails: a code whose first letter is the
    dotless i (U+0131, bytes C4 B1) is upper-cased to [IBC-123] and
    accepted, and it does not match [[A-Za-z0-9]{3}-[A-Za-z0-9]{3}]; the
    same holds with the long s (U+017F, bytes C5 BF), upper-cased to [S]. *)
Lemma isValidCodeFormat_accepts_dotless_i :
  let code := dotless_i +:+ "bc-123" in
  strings.ToUpper code = "IBC-123" /\
  isValidCodeFormat code = true /\
  spec_code_pattern code = false /\
  isValidCodeFormat (long_s +:+ "bc-123") = true /\
  spec_code_pattern (long_s +:+ "bc-123") = false /\
  ~ (forall s, isValidCodeFormat s = true <-> spec_code_pattern s = true).
Proof.
  assert (Hi : isValidCodeFormat (dotless_i +:+ "bc-123") = true)
    by (vm_compute; reflexivity).
  assert (Hp : spec_code_pattern (dotless_i +:+ "bc-123") = false)
    by (vm_compute; reflexivity).
  cbv zeta. split; [vm_compute; reflexivity|].
  split; [exact Hi|]. split; [exact Hp|].
  split; [vm_compute; reflexivity|]. split; [vm_compute; reflexivity|].
  intros H. apply H in Hi. congruence.
Qed.

(** C4 (amended): the validator accepts exactly the strings made of three
    units, a hyphen and three units, a unit being one byte of
    [[A-Za-z0-9]] or the UTF-8 bytes of U+0131 or U+017F, which
    [strings.ToUpper] takes to [I] and [S].  So it accepts every string
    that matches [[A-Za-z0-9]{3}-[A-Za-z0-9]{3}], and besides those only
    non-ASCII strings of that shape; ["abc-123"] is accepted, ["ABCD-12"],
    ["AB-123"] and [""] are rejected. *)
Theorem isValidCodeFormat_units :
  (forall s, isValidCodeFormat s = code_shape s) /\
  (forall s, isValidCodeFormat s
             = spec_code_pattern s || (negb (is_ascii s) && code_shape s)) /\
  isValidCodeFormat "abc-123" = true /\
  strings.ToUpper "abc-123" = "ABC-123" /\
  isValidCodeFormat "ABCD-12" = false /\
  isValidCodeFormat "AB-123" = false /\
  isValidCodeFormat "" = false.
Proof.
  split; [exact isValidCodeFormat_code_shape|].
  split; [|vm_compute; repeat split].
  intros s. rewrite isValidCodeFormat_code_shape.
  destruct (is_ascii s) eqn:A; cbn [negb andb].
  - rewrite orb_false_r. apply code_shape_ascii, A.
  - destruct (spec_code_pattern s) eqn:P; [|reflexivity].
    apply spec_code_pattern_ascii in P. congruence.
Qed.

(** ** The store lookup and the gate *)

Lemma validateCode_run (world : World) (client : Client) (code : string)
    (s : State) :
  dynamoClient world = Some client ->
  let key := strings.ToUpper code in
  validateCode world code s =
  (match GetItem client (tableName world) key with
   | inr err => (false, "", Some err)
   | inl {| Item := None |} => (false, "", None)
   | inl {| Item := Some item |} => (true, display_name item, None)
   end,
   {| w := w s;
      trace := (trace s ++ [StoreGetItem (tableName world) key])%list |}).
Proof.
  intros H key. unfold validateCode. rewrite H. fold key.
  destruct (GetItem client _ _) as [[[item|]]|err]; reflexivity.
Qed.

Lemma eqb_false (a b : string) : a <> b -> String.eqb a b = false.
Proof. apply String.eqb_neq. Qed.

Lemma withAuth_unconfigured (world : World) (next : HandlerFunc) (r : Request) :
  dynamoClient world = None -> withAuth world next r = next r.
Proof. intros H. unfold withAuth. rewrite H. reflexivity. Qed.

(** C1: when the store client is [nil], the gate hands every request to the
    inner handler, whatever code it carries; the two gated routes,
    [/api/info] and [/api/stream], then run their handlers directly. *)
Theorem gate_open_when_unconfigured (world : World) (r : Request) :
  dynamoClient world = None ->
  (forall next, withAuth world next r = next r) /\
  (URL_Path r = "/api/info" -> mux world r = handleVideoInfo world r) /\
  (URL_Path r = "/api/stream" -> mux world r = handleStream world r).
Proof.
  intros H. split; [|split].
  - intros next. apply withAuth_unconfigured, H.
  - intros P. unfold mux. rewrite P. cbn. apply withAuth_unconfigured, H.
  - intros P. unfold mux. rewrite P. cbn. apply withAuth_unconfigured, H.
Qed.

Lemma gate_open_when_unconfigured_witness :
  let world := exampleWorld None finishedCmd in
  let r := postWithCode "/api/info" (object1 "url" reelURL) "not a code" in
  dynamoClient world = None /\
  ((forall next, withAuth world next r = next r) /\
   (URL_Path r = "/api/info" -> mux world r = handleVideoInfo world r) /\
   (URL_Path r = "/api/stream" -> mux world r = handleStream world r)).
Proof.
  split; [reflexivity|].
  apply (gate_open_when_unconfigured (exampleWorld None finishedCmd)).
  reflexivity.
Defined.

(** C5: with a configured store and a well-formed code, a lookup that fails
    in transport is answered 500 ["Internal server error"] (and logged),
    a lookup that finds no record is answered 401 ["Unauthorized: invalid
    auth code"]; in neither case does the inner handler run, and the two
    answers differ in status and in body. *)
Theorem gate_transport_failure_vs_not_found
    (world : World) (client : Client) (next : HandlerFunc) (r : Request) :
  dynamoClient world = Some client ->
  isValidCodeFormat (presentedCode r) = true ->
  let key := strings.ToUpper (presentedCode r) in
  (forall err, GetItem client (tableName world) key = inr err ->
     serve (withAuth world next) r =
     {| StatusCode := StatusInternalServerError;
        ResponseBody := [Bytes ("Internal server error" +:+ newline)];
        calls := [StoreGetItem (tableName world) key;
                  Log "Auth validation error: %v" [ArgStr err]] |}) /\
  (GetItem client (tableName world) key = inl {| Item := None |} ->
     serve (withAuth world next) r =
     {| StatusCode := StatusUnauthorized;
        ResponseBody := [Bytes ("Unauthorized: invalid auth code" +:+ newline)];
        calls := [StoreGetItem (tableName world) key] |}).
Proof.
  intros Hc Hfmt key.
  assert (Hne : presentedCode r <> "").
  { intros E. rewrite E in Hfmt. vm_compute in Hfmt. discriminate. }
  assert (Hrun : forall s, withAuth world next r s =
            ('(valid, _, err) ← validateCode world (presentedCode r);
             match err with
             | Some e =>
               log_Printf "Auth validation error: %v" [ArgStr e] ;;
               http_Error "Internal server error" StatusInternalServerError
             | None =>
               if negb valid then
                 http_Error "Unauthorized: invalid auth code" StatusUnauthorized
               else next r
             end) s).
  { intros s. unfold withAuth. rewrite Hc. fold (presentedCode r).
    rewrite (eqb_false _ _ Hne), Hfmt. reflexivity. }
  split.
  - intros err E. unfold serve. rewrite Hrun.
    unfold mbind, M_bind. rewrite (validateCode_run _ _ _ _ Hc).
    fold key. rewrite E. reflexivity.
  - intros E. unfold serve. rewrite Hrun.
    unfold mbind, M_bind. rewrite (validateCode_run _ _ _ _ Hc).
    fold key. rewrite E. reflexivity.
Qed.

Lemma gate_transport_failure_vs_not_found_witness :
  let down := exampleWorld (Some unreachableClient) finishedCmd in
  let up := exampleWorld (Some (tableClient adaRecords)) finishedCmd in
  let r := postWithCode "/api/info" (object1 "url" reelURL) "XYZ-000" in
  presentedCode r = "XYZ-000" /\ isValidCodeFormat (presentedCode r) = true /\
  serve (withAuth down (handleVideoInfo down)) r
  = {| StatusCode := 500;
       ResponseBody := [Bytes ("Internal server error" +:+ newline)];
       calls := [StoreGetItem "insta-stream-users" "XYZ-000";
                 Log "Auth validation error: %v"
                     [ArgStr "dial tcp: i/o timeout"]] |} /\
  serve (withAuth up (handleVideoInfo up)) r
  = {| StatusCode := 401;
       ResponseBody := [Bytes ("Unauthorized: invalid auth code" +:+ newline)];
       calls := [StoreGetItem "insta-stream-users" "XYZ-000"] |}.
Proof.
  intros down up r.
  assert (Hf : isValidCodeFormat (presentedCode r) = true)
    by (vm_compute; reflexivity).
  split; [vm_compute; reflexivity|]. split; [exact Hf|]. split.
  - destruct (gate_transport_failure_vs_not_found down unreachableClient
                (handleVideoInfo down) r eq_refl Hf) as [Hdown _].
    rewrite (Hdown "dial tcp: i/o timeout" eq_refl).
    vm_compute. reflexivity.
  - destruct (gate_transport_failure_vs_not_found up (tableClient adaRecords)
                (handleVideoInfo up) r eq_refl Hf) as [_ Hup].
    rewrite Hup by (vm_compute; reflexivity).
    vm_compute. reflexivity.
Defined.

(** C6: with a configured store, [validateCode] on a well-formed code (the
    gate and [handleAuth] call it on no other) makes one lookup, under the
    presented code in upper case; a record found gives [true] with the
    record's [name] attribute (the empty string when it has none), no
    record gives [false]. *)
Theorem validateCode_configured (world : World) (client : Client)
    (code : string) (s : State) :
  dynamoClient world = Some client ->
  isValidCodeFormat code = true ->
  let key := strings.ToUpper code in
  snd (validateCode world code s)
  = {| w := w s;
       trace := (trace s ++ [StoreGetItem (tableName world) key])%list |} /\
  (forall item,
     GetItem client (tableName world) key = inl {| Item := Some item |} ->
     exists name,
       fst (validateCode world code s) = (true, name, None) /\
       (forall v, item !! "name" = Some (AttributeValueMemberS v) ->
                  name = v) /\
       (item !! "name" = None -> name = "")) /\
  (GetItem client (tableName world) key = inl {| Item := None |} ->
   fst (validateCode world code s) = (false, "", None)).
Proof.
  intros H _ key. rewrite (validateCode_run _ _ _ _ H). fold key.
  split; [reflexivity|]. split.
  - intros item ->. exists (display_name item).
    split; [reflexivity|]. unfold display_name.
    split; [intros v ->|intros ->]; reflexivity.
  - intros ->. reflexivity.
Qed.

Lemma validateCode_configured_witness :
  let world := exampleWorld (Some (tableClient adaRecords)) finishedCmd in
  let s := {| w := newResponseWriter; trace := [] |} in
  dynamoClient world = Some (tableClient adaRecords) /\
  isValidCodeFormat "xyz-789" = true /\
  isValidCodeFormat "XYZ-000" = true /\
  strings.ToUpper "xyz-789" = "XYZ-789" /\
  validateCode world "xyz-789" s
  = ((true, "Ada", None),
     {| w := newResponseWriter;
        trace := [StoreGetItem "insta-stream-users" "XYZ-789"] |}) /\
  fst (validateCode world "XYZ-000" s) = (false, "", None).
Proof.
  intros world s.
  assert (Hf1 : isValidCodeFormat "xyz-789" = true)
    by (vm_compute; reflexivity).
  assert (Hf2 : isValidCodeFormat "XYZ-000" = true)
    by (vm_compute; reflexivity).
  destruct (validateCode_configured world (tableClient adaRecords)
              "xyz-789" s eq_refl Hf1) as (Hs & Hfound & _).
  destruct (validateCode_configured world (tableClient adaRecords)
              "XYZ-000" s eq_refl Hf2) as (_ & _ & Habsent).
  split; [reflexivity|]. split; [exact Hf1|]. split; [exact Hf2|].
  split; [vm_compute; reflexivity|].
  split.
  - destruct (Hfound adaRecord) as (name & Hfst & Hname & _);
      [vm_compute; reflexivity|].
    rewrite (surjective_pairing (validateCode world "xyz-789" s)).
    rewrite Hs, Hfst, (Hname "Ada") by (vm_compute; reflexivity).
    vm_compute. reflexivity.
  - apply Habsent. vm_compute. reflexivity.
Defined.

(** ** The metadata endpoint *)

(** C8: a metadata request whose URL does not parse, has no scheme or no
    host, has a scheme other than [http] and [https], or has a host without
    ["instagram.com"], is answered with a 4xx status, and no call leaves
    the process: the extraction tool is not run. *)
Theorem handleVideoInfo_rejects_url (world : World) (r : Request)
    (req : StreamRequest) :
  Decode_StreamRequest world (Body r) = inl req ->
  rejected_url world (StreamRequest_URL req) ->
  client_error (StatusCode (serve (handleVideoInfo world) r)) /\
  calls (serve (handleVideoInfo world) r) = [] /\
  existsb spawns (calls (serve (handleVideoInfo world) r)) = false.
Proof.
  intros Hd Hrej.
  set (res := serve (handleVideoInfo world) r).
  assert (H : (StatusCode res = StatusBadRequest \/
               StatusCode res = StatusMethodNotAllowed) /\
              calls res = []).
  { unfold res, serve, handleVideoInfo, rejected_url in *.
    destruct (String.eqb (Method r) "POST"); [|split; [right|]; reflexivity].
    cbn [negb]. rewrite Hd.
    destruct (String.eqb (StreamRequest_URL req) "");
      [split; [left|]; reflexivity|].
    destruct (url_Parse world _) as [p|e]; [|split; [left|]; reflexivity].
    destruct (String.eqb_spec (Scheme p) ""); [split; [left|]; reflexivity|].
    destruct (String.eqb_spec (Host p) ""); [split; [left|]; reflexivity|].
    cbn [orb].
    destruct (String.eqb_spec (Scheme p) "http") as [Eh|Eh];
    destruct (String.eqb_spec (Scheme p) "https") as [Es|Es]; cbn [negb andb];
    try (split; [left|]; reflexivity);
    (destruct (strings.Contains (Host p) "instagram.com") eqn:C;
       [|split; [left|]; reflexivity]);
    exfalso; destruct Hrej as [?|[?|[[? ?]|?]]]; congruence. }
  destruct H as [Hs Hc]. rewrite Hc. split; [|split; reflexivity].
  unfold client_error. destruct Hs as [-> | ->]; cbv; lia.
Qed.

Lemma handleVideoInfo_rejects_url_witness :
  let world := exampleWorld None finishedCmd in
  let r := post "/api/info" (object1 "url" foreignURL) in
  let req := {| StreamRequest_URL := foreignURL |} in
  Decode_StreamRequest world (Body r) = inl req /\
  rejected_url world (StreamRequest_URL req) /\
  client_error (StatusCode (serve (handleVideoInfo world) r)) /\
  calls (serve (handleVideoInfo world) r) = [] /\
  existsb spawns (calls (serve (handleVideoInfo world) r)) = false.
Proof.
  intros world r req.
  assert (Hd : Decode_StreamRequest world (Body r) = inl req)
    by (vm_compute; reflexivity).
  assert (Hr : rejected_url world (StreamRequest_URL req)).
  { unfold rejected_url.
    replace (url_Parse world (StreamRequest_URL req))
      with (@inl URL error {| Scheme := "https"; Host := "example.com" |})
      by (vm_compute; reflexivity).
    right. right. right. vm_compute. reflexivity. }
  split; [exact Hd|]. split; [exact Hr|].
  exact (handleVideoInfo_rejects_url world r req Hd Hr).
Defined.



(** ** The code-validation endpoint *)

(** What the encoder makes of an acceptance. *)
Lemma AuthResponse_json_acceptance (name : string) :
  AuthResponse_json {| Valid := true; Name := name; Error := "" |}
  = acceptance name.
Proof.
  unfold AuthResponse_json, omitempty, acceptance. cbn [Valid Name Error].
  destruct (String.eqb name ""); reflexivity.
Qed.

(** C9: every POST to [/api/auth] is answered with status 200 and one
    JSON object: either [{"valid":true}], with the member [name] when the
    name is not empty, or [{"valid":false,"error":msg}] with one of the five
    error messages.  An unparsable body, a missing code, a malformed code, a
    failed lookup and an unknown code each give the refusal with their own
    message. *)
Theorem handleAuth_always_200 (world : World) (r : Request) :
  Method r = "POST" ->
  URL_Path r = "/api/auth" ->
  exists (j : json) (log : list Event),
    serve (mux world) r
    = {| StatusCode := 200; ResponseBody := [Encoded j]; calls := log |} /\
    (j = JObject [("valid", JBool true)] \/
     (exists name, name <> "" /\
        j = JObject [("valid", JBool true); ("name", JString name)]) \/
     (exists msg, In msg auth_errors /\
        j = JObject [("valid", JBool false); ("error", JString msg)])) /\
    (forall e, Decode_AuthRequest world (Body r) = inr e ->
       j = JObject [("valid", JBool false);
                    ("error", JString "Invalid request body")]) /\
    (forall req, Decode_AuthRequest world (Body r) = inl req ->
       (Code req = "" ->
        j = JObject [("valid", JBool false);
                     ("error", JString "Code is required")]) /\
       (Code req <> "" -> isValidCodeFormat (Code req) = false ->
        j = JObject [("valid", JBool false);
                     ("error",
                      JString "Invalid code format. Expected: XXX-XXX")]) /\
       (forall client, dynamoClient world = Some client ->
          isValidCodeFormat (Code req) = true ->
          (forall e, GetItem client (tableName world)
                       (strings.ToUpper (Code req)) = inr e ->
             j = JObject [("valid", JBool false);
                          ("error", JString "Failed to validate code")]) /\
          (GetItem client (tableName world) (strings.ToUpper (Code req))
           = inl {| Item := None |} ->
           j = JObject [("valid", JBool false);
                        ("error", JString "Invalid code")]))).
Proof.
  intros Hm Hp.
  assert (Hmux : serve (mux world) r = serve (handleAuth world) r).
  { unfold serve, mux. rewrite Hp. reflexivity. }
  rewrite Hmux. clear Hmux.
  assert (Hfail : forall msg, In msg auth_errors ->
    refusal msg = JObject [("valid", JBool true)] \/
    (exists name, name <> "" /\
       refusal msg = JObject [("valid", JBool true); ("name", JString name)]) \/
    (exists m, In m auth_errors /\
       refusal msg = JObject [("valid", JBool false); ("error", JString m)])).
  { intros msg Hin. right. right. exists msg. split; [exact Hin|reflexivity]. }
  assert (Hacc : forall name,
    acceptance name = JObject [("valid", JBool true)] \/
    (exists n, n <> "" /\
       acceptance name = JObject [("valid", JBool true); ("name", JString n)])
    \/
    (exists m, In m auth_errors /\
       acceptance name
       = JObject [("valid", JBool false); ("error", JString m)])).
  { intros name. unfold acceptance.
    destruct (String.eqb_spec name "") as [E|E]; [left; reflexivity|].
    right. left. exists name. split; [exact E|reflexivity]. }
  unfold serve, handleAuth. rewrite Hm.
  cbn [String.eqb Ascii.eqb Bool.eqb negb].
  destruct (Decode_AuthRequest world (Body r)) as [req|e0] eqn:Hd.
  2:{ exists (refusal "Invalid request body"), []. split; [reflexivity|].
      split; [apply Hfail; cbn; tauto|]. split; [reflexivity|]. discriminate. }
  destruct (String.eqb_spec (Code req) "") as [Hc|Hc].
  { exists (refusal "Code is required"), []. split; [reflexivity|].
    split; [apply Hfail; cbn; tauto|]. split; [discriminate|].
    intros ? [= <-]. split; [reflexivity|]. split; [contradiction|].
    intros client _ Hf. rewrite Hc in Hf. vm_compute in Hf. discriminate. }
  destruct (isValidCodeFormat (Code req)) eqn:Hf; cbn [negb].
  2:{ exists (refusal "Invalid code format. Expected: XXX-XXX"), [].
      split; [reflexivity|]. split; [apply Hfail; cbn; tauto|].
      split; [discriminate|]. intros ? [= <-].
      split; [contradiction|]. split; [reflexivity|].
      intros client _ Hf'. congruence. }
  destruct (dynamoClient world) as [client|] eqn:Hcl.
  - unfold mbind, M_bind. rewrite (validateCode_run _ _ _ _ Hcl).
    destruct (GetItem client _ _) as [[[item|]]|err] eqn:Hg.
    + exists (acceptance (display_name item)),
        [StoreGetItem (tableName world) (strings.ToUpper (Code req))].
      split; [rewrite <- AuthResponse_json_acceptance; reflexivity|].
      split; [apply Hacc|].
      split; [discriminate|]. intros ? [= <-].
      split; [contradiction|]. split; [congruence|].
      intros ? [= <-] _. rewrite Hg. split; [discriminate|discriminate].
    + exists (refusal "Invalid code"),
        [StoreGetItem (tableName world) (strings.ToUpper (Code req))].
      split; [reflexivity|]. split; [apply Hfail; cbn; tauto|].
      split; [discriminate|]. intros ? [= <-].
      split; [contradiction|]. split; [congruence|].
      intros ? [= <-] _. rewrite Hg. split; [discriminate|reflexivity].
    + exists (refusal "Failed to validate code"),
        [StoreGetItem (tableName world) (strings.ToUpper (Code req));
         Log "DynamoDB error: %v" [ArgStr err]].
      split; [reflexivity|]. split; [apply Hfail; cbn; tauto|].
      split; [discriminate|]. intros ? [= <-].
      split; [contradiction|]. split; [congruence|].
      intros ? [= <-] _. rewrite Hg. split; [reflexivity|discriminate].
  - exists (acceptance "Local User"), [].
    split; [unfold validateCode; rewrite Hcl; reflexivity|].
    split; [apply Hacc|].
    split; [discriminate|]. intros ? [= <-].
    split; [contradiction|]. split; [congruence|]. discriminate.
Qed.

Lemma handleAuth_always_200_witness :
  let world := exampleWorld (Some unreachableClient) finishedCmd in
  let r := post "/api/auth" (object1 "code" "xyz-789") in
  Method r = "POST" /\ URL_Path r = "/api/auth" /\
  serve (mux world) r
  = {| StatusCode := 200;
       ResponseBody :=
         [Encoded (JObject [("valid", JBool false);
                            ("error", JString "Failed to validate code")])];
       calls :=
         [StoreGetItem "insta-stream-users" "XYZ-789";
          Log "DynamoDB error: %v" [ArgStr "dial tcp: i/o timeout"]] |}.
Proof.
  intros world r. split; [reflexivity|]. split; [reflexivity|].
  destruct (handleAuth_always_200 world r eq_refl eq_refl)
    as (j & log & Hs & _ & _ & Hreq).
  destruct (Hreq {| Code := "xyz-789" |}) as (_ & _ & Hstore);
    [vm_compute; reflexivity|].
  destruct (Hstore unreachableClient eq_refl) as [Herr _];
    [vm_compute; reflexivity|].
  rewrite (Herr "dial tcp: i/o timeout" eq_refl) in Hs.
  rewrite Hs. f_equal.
  apply (f_equal calls) in Hs. vm_compute in Hs. symmetry. exact Hs.
Defined.

(** C10: without a store client, [handleAuth] still refuses an empty code
    and a malformed code with [{"valid":false,"error":msg}], and answers
    every well-formed code with [{"valid":true,"name":"Local User"}] without
    any lookup, while the gate of the other endpoints lets every request
    through unchecked. *)
Theorem handleAuth_degraded_open (world : World) (r : Request)
    (req : AuthRequest) :
  dynamoClient world = None ->
  Method r = "POST" ->
  Decode_AuthRequest world (Body r) = inl req ->
  (Code req = "" ->
   serve (handleAuth world) r
   = {| StatusCode := 200;
        ResponseBody :=
          [Encoded (JObject [("valid", JBool false);
                             ("error", JString "Code is required")])];
        calls := [] |}) /\
  (Code req <> "" -> isValidCodeFormat (Code req) = false ->
   serve (handleAuth world) r
   = {| StatusCode := 200;
        ResponseBody :=
          [Encoded
             (JObject [("valid", JBool false);
                       ("error",
                        JString "Invalid code format. Expected: XXX-XXX")])];
        calls := [] |}) /\
  (isValidCodeFormat (Code req) = true ->
   serve (handleAuth world) r
   = {| StatusCode := 200;
        ResponseBody :=
          [Encoded (JObject [("valid", JBool true);
                             ("name", JString "Local User")])];
        calls := [] |}) /\
  (forall next, withAuth world next r = next r).
Proof.
  intros Hcl Hm Hd.
  assert (Hrun : serve (handleAuth world) r =
    if String.eqb (Code req) "" then ok_json (refusal "Code is required") []
    else if isValidCodeFormat (Code req)
    then ok_json (acceptance "Local User") []
    else ok_json (refusal "Invalid code format. Expected: XXX-XXX") []).
  { unfold serve, handleAuth, validateCode. rewrite Hm, Hd, Hcl.
    destruct (String.eqb (Code req) ""); [reflexivity|].
    destruct (isValidCodeFormat (Code req)); reflexivity. }
  rewrite Hrun. repeat split.
  - intros ->. reflexivity.
  - intros Hne Hf. rewrite (eqb_false _ _ Hne), Hf. reflexivity.
  - intros Hf. rewrite Hf.
    destruct (String.eqb_spec (Code req) "") as [E|]; [|reflexivity].
    rewrite E in Hf. vm_compute in Hf. discriminate.
  - intros next. unfold withAuth. rewrite Hcl. reflexivity.
Qed.

Lemma handleAuth_degraded_open_witness :
  let world := exampleWorld None finishedCmd in
  dynamoClient world = None /\
  serve (handleAuth world) (post "/api/auth" (object1 "code" "XYZ-000"))
  = {| StatusCode := 200;
       ResponseBody :=
         [Encoded (JObject [("valid", JBool true);
                            ("name", JString "Local User")])];
       calls := [] |} /\
  serve (handleAuth world) (post "/api/auth" (object1 "code" "nope"))
  = {| StatusCode := 200;
       ResponseBody :=
         [Encoded
            (JObject [("valid", JBool false);
                      ("error",
                       JString "Invalid code format. Expected: XXX-XXX")])];
       calls := [] |} /\
  serve (handleAuth world) (post "/api/auth" (object1 "code" ""))
  = {| StatusCode := 200;
       ResponseBody :=
         [Encoded (JObject [("valid", JBool false);
                            ("error", JString "Code is required")])];
       calls := [] |}.
Proof.
  intros world. split; [reflexivity|]. split; [|split].
  - apply (handleAuth_degraded_open world _ {| Code := "XYZ-000" |});
      try reflexivity; vm_compute; reflexivity.
  - apply (handleAuth_degraded_open world _ {| Code := "nope" |});
      try reflexivity; try discriminate; vm_compute; reflexivity.
  - apply (handleAuth_degraded_open world _ {| Code := "" |});
      try reflexivity; vm_compute; reflexivity.
Defined.

(** ** The streaming endpoint *)

Ltac not_in_trace :=
  cbn; intros H; repeat destruct H as [H|H]; try discriminate; exact H.

Lemma handleStream_copy_unwaited (world : World) (r : Request) (e : error) :
  let cmd :=
    exec_Command world
      ["yt-dlp"; "-o"; "-"; "--no-warnings"; "-f"; "best";
       Values_Get (URL_Query r) "url"] in
  Start_err cmd = None -> Copy_err cmd = Some e ->
  ~ In CmdWait (calls (serve (handleStream world) r)).
Proof.
  intros cmd Hs Hc. unfold serve, handleStream. fold cmd.
  destruct (String.eqb _ ""); [not_in_trace|].
  destruct (StdoutPipe_err cmd); [not_in_trace|].
  destruct (StderrPipe_err cmd); [not_in_trace|].
  rewrite Hs, Hc.
  destruct (String.eqb (Copy_written cmd) ""); not_in_trace.
Qed.

Lemma handleStream_copy_waited (world : World) (r : Request) :
  let cmd :=
    exec_Command world
      ["yt-dlp"; "-o"; "-"; "--no-warnings"; "-f"; "best";
       Values_Get (URL_Query r) "url"] in
  Values_Get (URL_Query r) "url" <> "" ->
  StdoutPipe_err cmd = None -> StderrPipe_err cmd = None ->
  Start_err cmd = None -> Copy_err cmd = None ->
  In CmdWait (calls (serve (handleStream world) r)).
Proof.
  intros cmd Hu H1 H2 Hs Hc. unfold serve, handleStream. fold cmd.
  rewrite (eqb_false _ _ Hu), H1, H2, Hs, Hc.
  destruct (String.eqb (Copy_written cmd) ""), (Wait_err cmd); cbn;
    repeat (first [left; reflexivity | right]).
Qed.

(** No property of the URL but its being non-empty is looked at before the
    subprocess is started. *)
Lemma handleStream_starts_for_any_url (world : World) (r : Request) :
  let argv :=
    ["yt-dlp"; "-o"; "-"; "--no-warnings"; "-f"; "best";
     Values_Get (URL_Query r) "url"] in
  Values_Get (URL_Query r) "url" <> "" ->
  StdoutPipe_err (exec_Command world argv) = None ->
  StderrPipe_err (exec_Command world argv) = None ->
  In (CmdStart argv) (calls (serve (handleStream world) r)).
Proof.
  intros argv Hu H1 H2. unfold serve, handleStream. fold argv.
  rewrite (eqb_false _ _ Hu), H1, H2.
  destruct (Start_err (exec_Command world argv));
    [cbn; right; left; reflexivity|].
  destruct (String.eqb (Copy_written (exec_Command world argv)) ""),
    (Copy_err (exec_Command world argv)),
    (Wait_err (exec_Command world argv)); cbn; right; left; reflexivity.
Qed.

(** C2, on the code: when the copy loop ends with an error (here the
    client went away after three bytes), [handleStream] returns after
    logging it and [cmd.Wait] is never called; when the copy ends without
    an error, it is. *)
Theorem handleStream_copy_error_skips_wait :
  let world := exampleWorld None disconnectedCmd in
  let argv := ["yt-dlp"; "-o"; "-"; "--no-warnings"; "-f"; "best"; reelURL] in
  calls (serve (mux world) (getStream reelURL))
  = [Log "Streaming video from: %s" [ArgStr reelURL];
     CmdStart argv; GoStderrLogger; IoCopy 3;
     Log "Error streaming video: %v" [ArgStr "write tcp: broken pipe"]] /\
  ~ In CmdWait (calls (serve (mux world) (getStream reelURL))) /\
  In CmdWait
     (calls (serve (mux (exampleWorld None finishedCmd)) (getStream reelURL))).
Proof.
  vm_compute. split; [reflexivity|]. split; [|tauto].
  intros H. repeat destruct H as [H|H]; try discriminate. exact H.
Qed.

(** C3, on the code: [handleStream] checks only that [url] is not empty.
    For [https://example.com/video], which the metadata endpoint refuses
    with 400, it starts the subprocess and answers 200. *)
Theorem handleStream_spawns_for_foreign_url :
  let world := exampleWorld None finishedCmd in
  let argv :=
    ["yt-dlp"; "-o"; "-"; "--no-warnings"; "-f"; "best"; foreignURL] in
  rejected_url world foreignURL /\
  serve (mux world) (getStream foreignURL)
  = {| StatusCode := StatusOK;
       ResponseBody := [Bytes "abc"];
       calls := [Log "Streaming video from: %s" [ArgStr foreignURL];
                 CmdStart argv; GoStderrLogger; IoCopy 3; CmdWait;
                 Log "Streamed %d bytes" [ArgInt 3]] |} /\
  existsb spawns (calls (serve (mux world) (getStream foreignURL))) = true /\
  serve (mux world) (post "/api/info" (object1 "url" foreignURL))
  = {| StatusCode := StatusBadRequest;
       ResponseBody := [Bytes ("URL must be an Instagram URL" +:+ newline)];
       calls := [] |}.
Proof.
  split.
  - unfold rejected_url.
    replace (url_Parse _ foreignURL)
      with (@inl URL error {| Scheme := "https"; Host := "example.com" |})
      by (vm_compute; reflexivity).
    right. right. right. vm_compute. reflexivity.
  - vm_compute. repeat split.
Qed.

(** * Further properties of main.go *)

(** ** The canonical form of a code *)

Lemma strip_upper_decode (bs : list N) :
  strip_upper bs =
  match DecodeRune bs with
  | Some (r, rest) =>
    if regexp.in_class upperOrDigit r then Some rest else None
  | None => None
  end.
Proof.
  destruct bs as [|b0 t0]; [reflexivity|].
  cbn [strip_upper].
  assert (Hc : forall x, regexp.in_class upperOrDigit x = upper_digit x).
  { intros x. unfold regexp.in_class, upperOrDigit, upper_digit, existsb.
    rewrite orb_false_r. reflexivity. }
  assert (Hhigh : forall x, 0x80 <= x -> upper_digit x = false).
  { intros x Hx. unfold upper_digit, utf8.between.
    repeat (apply orb_false_intro || apply andb_false_intro2);
      apply N.leb_gt; lia. }
  destruct (N.lt_ge_cases b0 0x80) as [Hb0|Hb0].
  - rewrite DecodeRune_ascii by exact Hb0. rewrite Hc. reflexivity.
  - destruct (DecodeRune_high b0 t0 Hb0) as (r & rest & -> & Hr & _).
    rewrite Hc, !Hhigh by assumption. reflexivity.
Qed.

Lemma strip_hyphen_class (bs : list N) :
  strip_hyphen bs =
  match DecodeRune bs with
  | Some (r, rest) => if regexp.in_class hyphen r then Some rest else None
  | None => None
  end.
Proof.
  rewrite strip_hyphen_decode.
  destruct (DecodeRune bs) as [[r rest]|]; [|reflexivity].
  unfold regexp.in_class, hyphen, existsb, utf8.between.
  rewrite orb_false_r.
  replace ((45 <=? r) && (r <=? 45)) with (r =? 45) by bool_eq_lia.
  reflexivity.
Qed.

(** On any string the pattern matches exactly the canonical codes. *)
Lemma MatchString_pattern (k : string) :
  regexp.MatchString pattern k = canonical_code k.
Proof.
  unfold regexp.MatchString, canonical_code.
  rewrite <- (map_id (utf8.decode (utf8.bytes k))).
  apply (match_runes_strip_all (fun c => c)
           [(upperOrDigit, strip_upper); (upperOrDigit, strip_upper);
            (upperOrDigit, strip_upper); (hyphen, strip_hyphen);
            (upperOrDigit, strip_upper); (upperOrDigit, strip_upper);
            (upperOrDigit, strip_upper)]).
  repeat constructor;
    first [apply strip_upper_decode | apply strip_hyphen_class].
Qed.

(** X1: the validator accepts a code exactly when its upper-cased form is
    canonical: three bytes of [[A-Z0-9]], a hyphen, three bytes of
    [[A-Z0-9]], seven bytes in all. *)
Theorem isValidCodeFormat_canonical_key (code : string) :
  isValidCodeFormat code = canonical_code (strings.ToUpper code).
Proof. apply MatchString_pattern. Qed.

Lemma of_bytes_bytes (s : string) : utf8.of_bytes (utf8.bytes s) = s.
Proof.
  unfold utf8.of_bytes, utf8.bytes. rewrite map_map.
  rewrite (map_ext _ (fun c => c)) by apply ascii_N_embedding.
  rewrite map_id. apply string_of_list_ascii_of_string.
Qed.

(** Upper-casing bytes that are ASCII already is done byte by byte. *)
Lemma ToUpper_ascii_bytes (l : list N) :
  Forall (fun b => b < 0x80) l ->
  flat_map (fun c => utf8.encode (unicode.ToUpper c)) (utf8.decode l)
  = map unicode.ToUpper l.
Proof.
  induction 1 as [|b l Hb _ IH]; [reflexivity|].
  rewrite decode_unfold, DecodeRune_ascii by exact Hb.
  cbn [flat_map map]. rewrite IH. 
  replace (utf8.encode (unicode.ToUpper b)) with [unicode.ToUpper b];
    [reflexivity|].
  unfold utf8.encode, unicode.ToUpper, unicode.MaxASCII, utf8.between,
    utf8.RuneSelf.
  repeat split_if; reflexivity.
Qed.

Lemma canonical_code_bytes (k : string) :
  canonical_code k = true ->
  Forall (fun b => upper_digit b = true \/ b = 0x2D) (utf8.bytes k).
Proof.
  unfold canonical_code. generalize (utf8.bytes k). intros bs H.
  destruct bs as [|b1 [|b2 [|b3 [|b4 [|b5 [|b6 [|b7 [|b8 bs]]]]]]]];
    repeat (cbn [strip_all strip_upper strip_hyphen] in H;
            match type of H with
            | context [upper_digit ?b] =>
              destruct (upper_digit b) eqn:?; [|discriminate]
            | context [?b =? 45] =>
              destruct (N.eqb_spec b 45); [|discriminate]
            end);
    try discriminate.
  repeat (constructor; [tauto|]). constructor.
Qed.

Lemma canonical_code_fixed_bytes (l : list N) :
  Forall (fun b => upper_digit b = true \/ b = 0x2D) l ->
  Forall (fun b => b < 0x80) l /\ map unicode.ToUpper l = l.
Proof.
  induction 1 as [|b l Hb _ [IH1 IH2]]; [split; [constructor|reflexivity]|].
  assert (Hlt : b < 0x80 /\ unicode.ToUpper b = b).
  { unfold upper_digit, unicode.ToUpper, unicode.MaxASCII, utf8.between in *.
    destruct Hb as [Hb| ->]; [|split; [lia|reflexivity]].
    bool_to_prop; (split; [lia|]); repeat split_if; reflexivity. }
  destruct Hlt as [Hlt Hup]. split; [constructor; assumption|].
  cbn [map]. rewrite Hup, IH2. reflexivity.
Qed.

(** X2: a canonical code is well formed and is its own upper-cased form:
    the key a record is stored under, presented as it is, is looked up
    under itself. *)
Theorem canonical_code_fixed (k : string) :
  canonical_code k = true ->
  strings.ToUpper k = k /\ isValidCodeFormat k = true.
Proof.
  intros H.
  assert (Hk : strings.ToUpper k = k).
  { apply canonical_code_bytes, canonical_code_fixed_bytes in H.
    destruct H as [Hlt Hup].
    unfold strings.ToUpper, strings.Map.
    rewrite (ToUpper_ascii_bytes _ Hlt), Hup. apply of_bytes_bytes. }
  split; [exact Hk|].
  unfold isValidCodeFormat. rewrite MatchString_pattern, Hk. exact H.
Qed.

Lemma canonical_code_fixed_witness :
  canonical_code "XYZ-789" = true /\
  strings.ToUpper "XYZ-789" = "XYZ-789" /\ isValidCodeFormat "XYZ-789" = true.
Proof.
  assert (H : canonical_code "XYZ-789" = true) by (vm_compute; reflexivity).
  split; [exact H|]. exact (canonical_code_fixed "XYZ-789" H).
Defined.

Lemma encode_nonempty (r : utf8.rune) : utf8.encode r <> [].
Proof.
  unfold utf8.encode, utf8.encode3.
  repeat match goal with
  | |- context [if ?c then _ else _] => destruct c
  end; discriminate.
Qed.

Lemma ToUpper_empty (s : string) : strings.ToUpper s = "" -> s = "".
Proof.
  destruct s as [|c s]; [reflexivity|]. intros H. exfalso.
  unfold strings.ToUpper, strings.Map, utf8.of_bytes in H.
  destruct (utf8.decode (utf8.bytes (String c s))) as [|r rs] eqn:D.
  - apply decode_nil in D. discriminate.
  - cbn [flat_map] in H.
    destruct (utf8.encode (unicode.ToUpper r)) as [|b l] eqn:E;
      [exact (encode_nonempty _ E) | discriminate].
Qed.

(** ** The gate *)

Lemma isValidCodeFormat_nonempty (code : string) :
  isValidCodeFormat code = true -> code <> "".
Proof. intros H ->. vm_compute in H. discriminate. Qed.

(** The gate, once the store is configured, as a function of the presented
    code alone. *)
Lemma withAuth_configured (world : World) (client : Client)
    (next : HandlerFunc) (r : Request) :
  dynamoClient world = Some client ->
  withAuth world next r =
  if String.eqb (presentedCode r) "" then
    http_Error "Unauthorized: missing auth code" StatusUnauthorized
  else if negb (isValidCodeFormat (presentedCode r)) then
    http_Error "Unauthorized: invalid auth code format" StatusUnauthorized
  else
    '(valid, _, err) ← validateCode world (presentedCode r);
    match err with
    | Some e =>
      log_Printf "Auth validation error: %v" [ArgStr e] ;;
      http_Error "Internal server error" StatusInternalServerError
    | None =>
      if negb valid then
        http_Error "Unauthorized: invalid auth code" StatusUnauthorized
      else next r
    end.
Proof. intros H. unfold withAuth. rewrite H. reflexivity. Qed.

(** X3: with a configured store, a request that carries no code, neither
    in the header [X-Auth-Code] nor in the query parameter [auth], is
    answered 401 ["Unauthorized: missing auth code"]; the store is not
    asked and the inner handler does not run. *)
Theorem gate_missing_code (world : World) (client : Client)
    (next : HandlerFunc) (r : Request) :
  dynamoClient world = Some client ->
  Values_Get (Header r) "X-Auth-Code" = "" ->
  Values_Get (URL_Query r) "auth" = "" ->
  serve (withAuth world next) r
  = {| StatusCode := StatusUnauthorized;
       ResponseBody := [Bytes ("Unauthorized: missing auth code" +:+ newline)];
       calls := [] |}.
Proof.
  intros Hc Hh Hq. unfold serve.
  rewrite (withAuth_configured _ _ _ _ Hc). unfold presentedCode.
  rewrite Hh, Hq. reflexivity.
Qed.

Lemma gate_missing_code_witness :
  let world := exampleWorld (Some (tableClient adaRecords)) finishedCmd in
  let r := getStream reelURL in
  serve (withAuth world (handleStream world)) r
  = {| StatusCode := 401;
       ResponseBody := [Bytes ("Unauthorized: missing auth code" +:+ newline)];
       calls := [] |}.
Proof.
  intros world r.
  apply (gate_missing_code world (tableClient adaRecords)); reflexivity.
Defined.

(** X4: with a configured store, a code that is not well formed is
    answered 401 ["Unauthorized: invalid auth code format"] without any
    store lookup. *)
Theorem gate_malformed_code (world : World) (client : Client)
    (next : HandlerFunc) (r : Request) :
  dynamoClient world = Some client ->
  presentedCode r <> "" ->
  isValidCodeFormat (presentedCode r) = false ->
  serve (withAuth world next) r
  = {| StatusCode := StatusUnauthorized;
       ResponseBody :=
         [Bytes ("Unauthorized: invalid auth code format" +:+ newline)];
       calls := [] |}.
Proof.
  intros Hc Hne Hf. unfold serve.
  rewrite (withAuth_configured _ _ _ _ Hc), (eqb_false _ _ Hne), Hf.
  reflexivity.
Qed.

Lemma gate_malformed_code_witness :
  let world := exampleWorld (Some (tableClient adaRecords)) finishedCmd in
  let r := getStreamWithAuth reelURL "XYZ-7890" in
  presentedCode r = "XYZ-7890" /\
  serve (withAuth world (handleStream world)) r
  = {| StatusCode := 401;
       ResponseBody :=
         [Bytes ("Unauthorized: invalid auth code format" +:+ newline)];
       calls := [] |}.
Proof.
  intros world r. split; [vm_compute; reflexivity|].
  apply (gate_malformed_code world (tableClient adaRecords));
    [reflexivity | vm_compute; discriminate | vm_compute; reflexivity].
Defined.

(** X5: with a configured store, a well-formed code whose record exists
    lets the request through: after the one lookup the inner handler runs
    on the untouched response writer. *)
Theorem gate_allows_found (world : World) (client : Client)
    (next : HandlerFunc) (r : Request) (item : gmap string AttributeValue)
    (s : State) :
  dynamoClient world = Some client ->
  isValidCodeFormat (presentedCode r) = true ->
  let key := strings.ToUpper (presentedCode r) in
  GetItem client (tableName world) key = inl {| Item := Some item |} ->
  withAuth world next r s
  = next r {| w := w s;
              trace :=
                (trace s ++ [StoreGetItem (tableName world) key])%list |}.
Proof.
  intros Hc Hf key Hg.
  rewrite (withAuth_configured _ _ _ _ Hc),
    (eqb_false _ _ (isValidCodeFormat_nonempty _ Hf)), Hf.
  cbn [negb]. unfold mbind, M_bind.
  rewrite (validateCode_run _ _ _ _ Hc). fold key. rewrite Hg. reflexivity.
Qed.

Lemma gate_allows_found_witness :
  let world := exampleWorld (Some (tableClient adaRecords)) finishedCmd in
  let r := getStreamWithAuth reelURL "xyz-789" in
  serve (withAuth world (handleStream world)) r
  = {| StatusCode := 200;
       ResponseBody := [Bytes "abc"];
       calls := [StoreGetItem "insta-stream-users" "XYZ-789";
                 Log "Streaming video from: %s" [ArgStr reelURL];
                 CmdStart ["yt-dlp"; "-o"; "-"; "--no-warnings"; "-f"; "best";
                           reelURL];
                 GoStderrLogger; IoCopy 3; CmdWait;
                 Log "Streamed %d bytes" [ArgInt 3]] |}.
Proof.
  intros world r. unfold serve.
  rewrite (gate_allows_found world (tableClient adaRecords) _ r adaRecord);
    [vm_compute; reflexivity | reflexivity | vm_compute; reflexivity
    | vm_compute; reflexivity].
Defined.

Lemma withAuth_presentedCode (world : World) (k : M unit) (r1 r2 : Request) :
  presentedCode r1 = presentedCode r2 ->
  withAuth world (fun _ => k) r1 = withAuth world (fun _ => k) r2.
Proof.
  intros E. unfold withAuth. destruct (dynamoClient world); [|reflexivity].
  fold (presentedCode r1) (presentedCode r2). rewrite E. reflexivity.
Qed.

(** X6: the header wins: two requests with the same non-empty
    [X-Auth-Code] header get the same decision of the gate, whatever their
    [auth] query parameters are. *)
Theorem gate_header_precedence (world : World) (k : M unit)
    (r1 r2 : Request) :
  Values_Get (Header r1) "X-Auth-Code" <> "" ->
  Values_Get (Header r2) "X-Auth-Code" = Values_Get (Header r1) "X-Auth-Code" ->
  withAuth world (fun _ => k) r1 = withAuth world (fun _ => k) r2.
Proof.
  intros H1 H2. apply withAuth_presentedCode. unfold presentedCode.
  rewrite H2, (eqb_false _ _ H1). reflexivity.
Qed.

Lemma gate_header_precedence_witness :
  let world := exampleWorld (Some (tableClient adaRecords)) finishedCmd in
  let r1 := getStreamWithBoth reelURL "xyz-789" "nope" in
  let r2 := getStreamWithBoth reelURL "xyz-789" "XYZ-000" in
  Values_Get (Header r1) "X-Auth-Code" = "xyz-789" /\
  Values_Get (URL_Query r1) "auth" = "nope" /\
  withAuth world (fun _ => mret tt) r1 = withAuth world (fun _ => mret tt) r2.
Proof.
  intros world r1 r2. split; [vm_compute; reflexivity|].
  split; [vm_compute; reflexivity|].
  apply gate_header_precedence;
    [vm_compute; discriminate | vm_compute; reflexivity].
Defined.

(** X7: without the header, the query parameter [auth] is the code: such a
    request gets the decision of a request with that code in the header. *)
Theorem gate_query_fallback (world : World) (k : M unit) (r1 r2 : Request) :
  Values_Get (Header r1) "X-Auth-Code" = "" ->
  Values_Get (URL_Query r1) "auth" <> "" ->
  Values_Get (Header r2) "X-Auth-Code" = Values_Get (URL_Query r1) "auth" ->
  withAuth world (fun _ => k) r1 = withAuth world (fun _ => k) r2.
Proof.
  intros H1 Hq H2. apply withAuth_presentedCode. unfold presentedCode.
  rewrite H1, H2, (eqb_false _ _ Hq). reflexivity.
Qed.

Lemma gate_query_fallback_witness :
  let world := exampleWorld (Some (tableClient adaRecords)) finishedCmd in
  let r1 := getStreamWithAuth reelURL "xyz-789" in
  let r2 := getStreamWithBoth reelURL "xyz-789" "" in
  Values_Get (Header r1) "X-Auth-Code" = "" /\
  Values_Get (URL_Query r1) "auth" = "xyz-789" /\
  withAuth world (fun _ => mret tt) r1 = withAuth world (fun _ => mret tt) r2.
Proof.
  intros world r1 r2. split; [vm_compute; reflexivity|].
  split; [vm_compute; reflexivity|].
  apply gate_query_fallback;
    [vm_compute; reflexivity | vm_compute; discriminate
    | vm_compute; reflexivity].
Defined.

(** On a code made of ASCII bytes, [strings.ToUpper] works byte by
    byte. *)
Lemma ToUpper_asciiUpper (s : string) :
  is_ascii s = true -> strings.ToUpper s = asciiUpper s.
Proof.
  unfold is_ascii, strings.ToUpper, strings.Map, asciiUpper. intros H.
  rewrite forallb_forall in H. f_equal. rewrite ToUpper_ascii_bytes.
  - apply map_ext_in. intros b Hb. apply H, N.ltb_lt in Hb.
    unfold unicode.ToUpper, unicode.MaxASCII.
    destruct (N.leb_spec b 0x7F); [reflexivity|lia].
  - apply List.Forall_forall. intros b Hb. apply N.ltb_lt, H, Hb.
Qed.

Lemma withAuth_ToUpper (world : World) (k : M unit) (r1 r2 : Request) :
  strings.ToUpper (presentedCode r1) = strings.ToUpper (presentedCode r2) ->
  withAuth world (fun _ => k) r1 = withAuth world (fun _ => k) r2.
Proof.
  intros E. unfold withAuth. destruct (dynamoClient world) as [client|] eqn:Hc;
    [|reflexivity].
  fold (presentedCode r1) (presentedCode r2).
  assert (Hempty : String.eqb (presentedCode r1) ""
                   = String.eqb (presentedCode r2) "").
  { destruct (String.eqb_spec (presentedCode r1) "") as [E1|E1],
      (String.eqb_spec (presentedCode r2) "") as [E2|E2]; try reflexivity;
      exfalso.
    - rewrite E1 in E. symmetry in E. apply ToUpper_empty in E. auto.
    - rewrite E2 in E. apply ToUpper_empty in E. auto. }
  rewrite Hempty. unfold isValidCodeFormat, validateCode. rewrite Hc, E.
  reflexivity.
Qed.

(** X8: on codes made of ASCII bytes the gate does not distinguish letter
    case: two requests whose codes differ only in the case of the letters
    [a]-[z] get the same decision. *)
Theorem gate_case_insensitive (world : World) (k : M unit)
    (r1 r2 : Request) :
  is_ascii (presentedCode r1) = true ->
  is_ascii (presentedCode r2) = true ->
  asciiUpper (presentedCode r1) = asciiUpper (presentedCode r2) ->
  withAuth world (fun _ => k) r1 = withAuth world (fun _ => k) r2.
Proof.
  intros H1 H2 E. apply withAuth_ToUpper.
  rewrite !ToUpper_asciiUpper by assumption. exact E.
Qed.

Lemma gate_case_insensitive_witness :
  let world := exampleWorld (Some (tableClient adaRecords)) finishedCmd in
  let r1 := getStreamWithAuth reelURL "xyz-789" in
  let r2 := getStreamWithAuth reelURL "XyZ-789" in
  asciiUpper (presentedCode r1) = "XYZ-789" /\
  asciiUpper (presentedCode r2) = "XYZ-789" /\
  withAuth world (fun _ => mret tt) r1 = withAuth world (fun _ => mret tt) r2.
Proof.
  intros world r1 r2. split; [vm_compute; reflexivity|].
  split; [vm_compute; reflexivity|].
  apply gate_case_insensitive; vm_compute; reflexivity.
Defined.

(** A denied request is answered by the gate alone. *)
Lemma gate_denies (world : World) (client : Client) (next : HandlerFunc)
    (r : Request) :
  dynamoClient world = Some client ->
  let key := strings.ToUpper (presentedCode r) in
  presentedCode r = "" \/
  isValidCodeFormat (presentedCode r) = false \/
  (exists e, GetItem client (tableName world) key = inr e) \/
  GetItem client (tableName world) key = inl {| Item := None |} ->
  let res := serve (withAuth world next) r in
  res = serve (withAuth world (fun _ => mret tt)) r /\
  (StatusCode res = StatusUnauthorized \/
   StatusCode res = StatusInternalServerError) /\
  existsb spawns (calls res) = false.
Proof.
  intros Hc key Hd res. unfold res, serve.
  rewrite !(withAuth_configured _ _ _ _ Hc).
  destruct (String.eqb_spec (presentedCode r) "") as [E|E];
    [split; [|split; [left|]]; reflexivity|].
  destruct (isValidCodeFormat (presentedCode r)) eqn:Hf; cbn [negb];
    [|split; [|split; [left|]]; reflexivity].
  unfold mbind, M_bind. rewrite !(validateCode_run _ _ _ _ Hc). fold key.
  destruct Hd as [Hd|[Hd|[[e Hd]|Hd]]]; try congruence; rewrite Hd;
    (split; [|split; [|reflexivity]]); try reflexivity;
    [right|left]; reflexivity.
Qed.

(** X9: on the gated routes, with a configured store, a request without a
    code, with a malformed code, with an unknown code or one whose lookup
    fails is answered by the gate alone, 401 or 500: the answer does not
    depend on the handler behind the gate, and no subprocess is started. *)
Theorem gated_routes_denied (world : World) (client : Client) (r : Request) :
  dynamoClient world = Some client ->
  URL_Path r = "/api/info" \/ URL_Path r = "/api/stream" ->
  let key := strings.ToUpper (presentedCode r) in
  presentedCode r = "" \/
  isValidCodeFormat (presentedCode r) = false \/
  (exists e, GetItem client (tableName world) key = inr e) \/
  GetItem client (tableName world) key = inl {| Item := None |} ->
  (forall next, serve (mux world) r = serve (withAuth world next) r) /\
  (StatusCode (serve (mux world) r) = StatusUnauthorized \/
   StatusCode (serve (mux world) r) = StatusInternalServerError) /\
  existsb spawns (calls (serve (mux world) r)) = false.
Proof.
  intros Hc Hp key Hd.
  assert (Hmux : exists h, serve (mux world) r = serve (withAuth world h) r).
  { unfold serve, mux.
    destruct Hp as [-> | ->]; cbn [String.eqb Ascii.eqb Bool.eqb];
      eexists; reflexivity. }
  destruct Hmux as [h ->].
  destruct (gate_denies world client h r Hc Hd) as (Hh & Hst & Hsp).
  split; [|split; assumption].
  intros next. destruct (gate_denies world client next r Hc Hd) as (Hn & _).
  cbv zeta in Hh, Hn. congruence.
Qed.

Lemma gated_routes_denied_witness :
  let world := exampleWorld (Some (tableClient adaRecords)) disconnectedCmd in
  let r := getStreamWithAuth reelURL "XYZ-000" in
  serve (mux world) r
  = {| StatusCode := 401;
       ResponseBody := [Bytes ("Unauthorized: invalid auth code" +:+ newline)];
       calls := [StoreGetItem "insta-stream-users" "XYZ-000"] |} /\
  existsb spawns (calls (serve (mux world) r)) = false.
Proof.
  intros world r.
  destruct (gated_routes_denied world (tableClient adaRecords) r)
    as (_ & _ & Hsp).
  - reflexivity.
  - right. reflexivity.
  - right. right. right. vm_compute. reflexivity.
  - split; [vm_compute; reflexivity | exact Hsp].
Defined.

(** ** The code-validation endpoint *)

(** X10: with a configured store, a POST with a well-formed code whose
    record exists is answered 200 after one lookup under the upper-cased
    code, with [{"valid":true,"name":v}] when the record's [name] attribute
    is the non-empty string [v], and with [{"valid":true}] alone when the
    record has no [name], a [name] that is not a string, or an empty
    one. *)
Theorem handleAuth_found (world : World) (client : Client) (r : Request)
    (req : AuthRequest) (item : gmap string AttributeValue) :
  dynamoClient world = Some client ->
  Method r = "POST" ->
  Decode_AuthRequest world (Body r) = inl req ->
  isValidCodeFormat (Code req) = true ->
  let key := strings.ToUpper (Code req) in
  GetItem client (tableName world) key = inl {| Item := Some item |} ->
  (forall v, item !! "name" = Some (AttributeValueMemberS v) -> v <> "" ->
     serve (handleAuth world) r
     = {| StatusCode := 200;
          ResponseBody :=
            [Encoded (JObject [("valid", JBool true); ("name", JString v)])];
          calls := [StoreGetItem (tableName world) key] |}) /\
  ((forall v, item !! "name" = Some (AttributeValueMemberS v) -> v = "") ->
     serve (handleAuth world) r
     = {| StatusCode := 200;
          ResponseBody := [Encoded (JObject [("valid", JBool true)])];
          calls := [StoreGetItem (tableName world) key] |}).
Proof.
  intros Hc Hm Hd Hf key Hg.
  assert (Hs : serve (handleAuth world) r
               = ok_json (acceptance (display_name item))
                   [StoreGetItem (tableName world) key]).
  { unfold serve, handleAuth.
    rewrite Hm, Hd, (eqb_false _ _ (isValidCodeFormat_nonempty _ Hf)), Hf.
    cbn [String.eqb Ascii.eqb Bool.eqb negb]. unfold mbind, M_bind.
    rewrite (validateCode_run _ _ _ _ Hc). fold key. rewrite Hg.
    rewrite <- AuthResponse_json_acceptance. reflexivity. }
  rewrite Hs. unfold display_name, ok_json, acceptance. split.
  - intros v -> Hv. rewrite (eqb_false _ _ Hv). reflexivity.
  - intros Hn. destruct (item !! "name") as [[v| | |]|]; try reflexivity.
    rewrite (Hn v eq_refl). reflexivity.
Qed.

Lemma handleAuth_found_witness :
  let world := exampleWorld (Some (tableClient adaRecords)) finishedCmd in
  serve (handleAuth world) (post "/api/auth" (object1 "code" "xyz-789"))
  = {| StatusCode := 200;
       ResponseBody :=
         [Encoded (JObject [("valid", JBool true); ("name", JString "Ada")])];
       calls := [StoreGetItem "insta-stream-users" "XYZ-789"] |}.
Proof.
  intros world.
  pose (r := post "/api/auth" (object1 "code" "xyz-789")).
  assert (Hd : Decode_AuthRequest world (Body r) = inl {| Code := "xyz-789" |})
    by (vm_compute; reflexivity).
  assert (Hf : isValidCodeFormat "xyz-789" = true)
    by (vm_compute; reflexivity).
  assert (Hg : GetItem (tableClient adaRecords) (tableName world)
                 (strings.ToUpper "xyz-789")
               = inl {| Item := Some adaRecord |})
    by (vm_compute; reflexivity).
  destruct (handleAuth_found world (tableClient adaRecords) r
              {| Code := "xyz-789" |} adaRecord eq_refl eq_refl Hd Hf Hg)
    as (Hs & _).
  fold r. rewrite (Hs "Ada") by (vm_compute; reflexivity || discriminate).
  vm_compute. reflexivity.
Defined.

(** X11: the envelope always has its [valid] member; [name] and [error]
    are members exactly when they are not empty. *)
Theorem AuthResponse_json_members (a : AuthResponse) :
  member "valid" (AuthResponse_json a) = Some (JBool (Valid a)) /\
  member "name" (AuthResponse_json a)
  = (if String.eqb (Name a) "" then None else Some (JString (Name a))) /\
  member "error" (AuthResponse_json a)
  = (if String.eqb (Error a) "" then None else Some (JString (Error a))).
Proof.
  destruct a as [v n e]. unfold AuthResponse_json, omitempty.
  cbn [Valid Name Error].
  destruct (String.eqb n ""), (String.eqb e ""); repeat split.
Qed.

(** X12: every answer of [/api/auth] to a POST is declared as
    [application/json]. *)
Theorem handleAuth_content_type (world : World) (r : Request) :
  Method r = "POST" ->
  Values_Get (header (served (handleAuth world) r)) "Content-Type"
  = "application/json".
Proof.
  intros Hm. unfold served, handleAuth, validateCode. rewrite Hm.
  cbn [String.eqb Ascii.eqb Bool.eqb negb].
  repeat match goal with
  | |- context [match ?x with _ => _ end] =>
    lazymatch x with
    | context [match _ with _ => _ end] => fail
    | _ => destruct x
    end
  end; reflexivity.
Qed.

Lemma handleAuth_content_type_witness :
  let world := exampleWorld (Some unreachableClient) finishedCmd in
  let r := post "/api/auth" (object1 "code" "xyz-789") in
  Values_Get (header (served (handleAuth world) r)) "Content-Type"
  = "application/json".
Proof. intros world r. apply handleAuth_content_type. reflexivity. Defined.

(** ** The metadata endpoint *)

(** [strings.Contains] finds the substring wherever it stands. *)
Lemma HasPrefix_app (p rest : string) :
  strings.HasPrefix (p +:+ rest) p = true.
Proof.
  induction p as [|c p IH]; [destruct rest; reflexivity|].
  change (String c p +:+ rest) with (String c (p +:+ rest)).
  cbn [strings.HasPrefix]. rewrite Ascii.eqb_refl. exact IH.
Qed.

Lemma Contains_app (a sub b : string) :
  strings.Contains (a +:+ sub +:+ b) sub = true.
Proof.
  induction a as [|c a IH].
  - change ("" +:+ sub +:+ b) with (sub +:+ b).
    destruct (sub +:+ b) eqn:E; cbn [strings.Contains];
      rewrite <- ?E, HasPrefix_app; reflexivity.
  - change (String c a +:+ sub +:+ b) with (String c (a +:+ sub +:+ b)).
    cbn [strings.Contains]. rewrite IH. apply orb_true_r.
Qed.

Lemma HasPrefix_inv (s p : string) :
  strings.HasPrefix s p = true -> exists rest, s = p +:+ rest.
Proof.
  revert s. induction p as [|c p IH]; intros s H.
  - exists s. reflexivity.
  - destruct s as [|d s]; [discriminate|]. cbn [strings.HasPrefix] in H.
    destruct (Ascii.eqb_spec c d) as [->|]; [|discriminate].
    destruct (IH s H) as [rest ->]. exists rest. reflexivity.
Qed.

Lemma Contains_inv (s sub : string) :
  strings.Contains s sub = true -> exists a b, s = a +:+ sub +:+ b.
Proof.
  induction s as [|c s IH]; cbn [strings.Contains]; intros H.
  - rewrite orb_false_r in H. apply HasPrefix_inv in H.
    destruct H as [rest ->]. exists "", rest. reflexivity.
  - apply orb_true_iff in H. destruct H as [H|H].
    + apply HasPrefix_inv in H. destruct H as [rest ->].
      exists "", rest. reflexivity.
    + destruct (IH H) as (a & b & ->). exists (String c a), b. reflexivity.
Qed.

(** The gate of the metadata endpoint up to the tool: what the request must
    satisfy for [yt-dlp] to be run. *)
Lemma handleVideoInfo_accepted (world : World) (r : Request)
    (req : StreamRequest) (parsed : URL) :
  Method r = "POST" ->
  Decode_StreamRequest world (Body r) = inl req ->
  StreamRequest_URL req <> "" ->
  url_Parse world (StreamRequest_URL req) = inl parsed ->
  Scheme parsed = "http" \/ Scheme parsed = "https" ->
  strings.Contains (Host parsed) "instagram.com" = true ->
  let argv := ["yt-dlp"; "-j"; "--no-warnings"; StreamRequest_URL req] in
  handleVideoInfo world r =
  (emit (CmdOutput argv) ;;
   match exec_Output world argv with
   | inr err =>
     log_Printf "yt-dlp error: %v" [ArgStr err] ;;
     http_Error "Failed to get video info" StatusInternalServerError
   | inl output =>
     match Unmarshal world output with
     | inr _ =>
       http_Error "Failed to parse video info" StatusInternalServerError
     | inl info =>
       Header_Set "Content-Type" "application/json" ;;
       Encode (VideoInfo_json
                 {| VideoInfo_URL := default "" (string_field info "url");
                    VideoInfo_Title :=
                      default "video" (string_field info "title");
                    VideoInfo_Extension :=
                      default "mp4" (string_field info "ext") |})
     end
   end).
Proof.
  intros Hm Hd Hu Hp Hs Hh argv.
  unfold handleVideoInfo. rewrite Hm, Hd, (eqb_false _ _ Hu), Hp.
  assert (Hhost : String.eqb (Host parsed) "" = false).
  { destruct (String.eqb_spec (Host parsed) "") as [E|]; [|reflexivity].
    rewrite E in Hh. discriminate. }
  rewrite Hhost, Hh.
  assert (Hscheme :
    String.eqb (Scheme parsed) "" = false /\
    negb (String.eqb (Scheme parsed) "http")
    && negb (String.eqb (Scheme parsed) "https") = false).
  { destruct Hs as [-> | ->]; split; reflexivity. }
  destruct Hscheme as [-> ->]. reflexivity.
Qed.

(** X13: when the request is accepted and the tool fails, the answer is
    500 ["Failed to get video info"] and the tool's error goes to the log
    only; when the tool's output is not JSON, the answer is 500 ["Failed to
    parse video info"]. *)
Theorem handleVideoInfo_tool_failure (world : World) (r : Request)
    (req : StreamRequest) (parsed : URL) :
  Method r = "POST" ->
  Decode_StreamRequest world (Body r) = inl req ->
  StreamRequest_URL req <> "" ->
  url_Parse world (StreamRequest_URL req) = inl parsed ->
  Scheme parsed = "http" \/ Scheme parsed = "https" ->
  strings.Contains (Host parsed) "instagram.com" = true ->
  let argv := ["yt-dlp"; "-j"; "--no-warnings"; StreamRequest_URL req] in
  (forall err, exec_Output world argv = inr err ->
     serve (handleVideoInfo world) r
     = {| StatusCode := StatusInternalServerError;
          ResponseBody := [Bytes ("Failed to get video info" +:+ newline)];
          calls := [CmdOutput argv; Log "yt-dlp error: %v" [ArgStr err]] |}) /\
  (forall output e, exec_Output world argv = inl output ->
     Unmarshal world output = inr e ->
     serve (handleVideoInfo world) r
     = {| StatusCode := StatusInternalServerError;
          ResponseBody := [Bytes ("Failed to parse video info" +:+ newline)];
          calls := [CmdOutput argv] |}).
Proof.
  intros Hm Hd Hu Hp Hs Hh argv.
  unfold serve. rewrite (handleVideoInfo_accepted _ _ _ _ Hm Hd Hu Hp Hs Hh).
  fold argv. split.
  - intros err He. unfold mbind, M_bind, emit. rewrite He. reflexivity.
  - intros output e Ho He. unfold mbind, M_bind, emit. rewrite Ho, He.
    reflexivity.
Qed.

Lemma handleVideoInfo_tool_failure_witness :
  let base := exampleWorld None finishedCmd in
  let failing := withTool base (fun _ => inr "exit status 1") in
  let garbled := withTool base (fun _ => inl "WARNING: no JSON") in
  let r := post "/api/info" (object1 "url" reelURL) in
  let argv := ["yt-dlp"; "-j"; "--no-warnings"; reelURL] in
  serve (handleVideoInfo failing) r
  = {| StatusCode := 500;
       ResponseBody := [Bytes ("Failed to get video info" +:+ newline)];
       calls := [CmdOutput argv;
                 Log "yt-dlp error: %v" [ArgStr "exit status 1"]] |} /\
  serve (handleVideoInfo garbled) r
  = {| StatusCode := 500;
       ResponseBody := [Bytes ("Failed to parse video info" +:+ newline)];
       calls := [CmdOutput argv] |}.
Proof.
  intros base failing garbled r argv.
  pose (req := {| StreamRequest_URL := reelURL |}).
  pose (parsed := {| Scheme := "https"; Host := "www.instagram.com" |}).
  assert (Hu : StreamRequest_URL req <> "") by discriminate.
  assert (Hs : Scheme parsed = "http" \/ Scheme parsed = "https")
    by (right; reflexivity).
  assert (Hh : strings.Contains (Host parsed) "instagram.com" = true)
    by (vm_compute; reflexivity).
  split.
  - assert (Hd : Decode_StreamRequest failing (Body r) = inl req)
      by (vm_compute; reflexivity).
    assert (Hp : url_Parse failing (StreamRequest_URL req) = inl parsed)
      by (vm_compute; reflexivity).
    destruct (handleVideoInfo_tool_failure failing r req parsed
                eq_refl Hd Hu Hp Hs Hh) as [H _].
    apply (H "exit status 1"). reflexivity.
  - assert (Hd : Decode_StreamRequest garbled (Body r) = inl req)
      by (vm_compute; reflexivity).
    assert (Hp : url_Parse garbled (StreamRequest_URL req) = inl parsed)
      by (vm_compute; reflexivity).
    destruct (handleVideoInfo_tool_failure garbled r req parsed
                eq_refl Hd Hu Hp Hs Hh) as [_ H].
    apply (H "WARNING: no JSON" "unexpected input");
      [reflexivity | vm_compute; reflexivity].
Defined.

(** X14: the host test is a substring test: a URL with scheme [http] or
    [https] whose host has ["instagram.com"] anywhere in it, as in
    [instagram.com.example.net], is accepted and the tool is run on it. *)
Theorem handleVideoInfo_host_substring (world : World) (r : Request)
    (req : StreamRequest) (parsed : URL) (before after : string) :
  Method r = "POST" ->
  Decode_StreamRequest world (Body r) = inl req ->
  StreamRequest_URL req <> "" ->
  url_Parse world (StreamRequest_URL req) = inl parsed ->
  Scheme parsed = "http" \/ Scheme parsed = "https" ->
  Host parsed = before +:+ "instagram.com" +:+ after ->
  In (CmdOutput ["yt-dlp"; "-j"; "--no-warnings"; StreamRequest_URL req])
     (calls (serve (handleVideoInfo world) r)).
Proof.
  intros Hm Hd Hu Hp Hs Hh.
  assert (Hc : strings.Contains (Host parsed) "instagram.com" = true)
    by (rewrite Hh; apply Contains_app).
  unfold serve. rewrite (handleVideoInfo_accepted _ _ _ _ Hm Hd Hu Hp Hs Hc).
  unfold mbind, M_bind, emit.
  destruct (exec_Output world _) as [output|err];
    [destruct (Unmarshal world output)|]; cbn; left; reflexivity.
Qed.

Lemma handleVideoInfo_host_substring_witness :
  let r := post "/api/info" (object1 "url" lookalikeURL) in
  In (CmdOutput ["yt-dlp"; "-j"; "--no-warnings"; lookalikeURL])
     (calls (serve (handleVideoInfo lookalikeWorld) r)).
Proof.
  intros r.
  pose (req := {| StreamRequest_URL := lookalikeURL |}).
  pose (parsed := {| Scheme := "https";
                     Host := "instagram.com.example.net" |}).
  assert (Hd : Decode_StreamRequest lookalikeWorld (Body r) = inl req)
    by (vm_compute; reflexivity).
  assert (Hp : url_Parse lookalikeWorld (StreamRequest_URL req) = inl parsed)
    by (vm_compute; reflexivity).
  assert (Hu : StreamRequest_URL req <> "") by discriminate.
  assert (Hs : Scheme parsed = "http" \/ Scheme parsed = "https")
    by (right; reflexivity).
  exact (handleVideoInfo_host_substring lookalikeWorld r req parsed
           "" ".example.net" eq_refl Hd Hu Hp Hs eq_refl).
Defined.

(** X15: the two JSON endpoints answer a method other than POST with 405
    ["Method not allowed"]; the metadata endpoint answers an undecodable
    body with 400 ["Invalid request body"] and a missing or empty [url]
    with 400 ["URL is required"]; in each case no call leaves the
    process. *)
Theorem json_endpoints_reject_early (world : World) (r : Request) :
  let refused code msg :=
    {| StatusCode := code; ResponseBody := [Bytes (msg +:+ newline)];
       calls := [] |} in
  (Method r <> "POST" ->
   serve (handleAuth world) r
   = refused StatusMethodNotAllowed "Method not allowed" /\
   serve (handleVideoInfo world) r
   = refused StatusMethodNotAllowed "Method not allowed") /\
  (Method r = "POST" ->
   (forall e, Decode_StreamRequest world (Body r) = inr e ->
      serve (handleVideoInfo world) r
      = refused StatusBadRequest "Invalid request body") /\
   (forall req, Decode_StreamRequest world (Body r) = inl req ->
      StreamRequest_URL req = "" ->
      serve (handleVideoInfo world) r
      = refused StatusBadRequest "URL is required")).
Proof.
  intros refused. unfold refused, serve, handleAuth, handleVideoInfo. split.
  - intros Hm. rewrite (eqb_false _ _ Hm). split; reflexivity.
  - intros ->. cbn [String.eqb Ascii.eqb Bool.eqb negb]. split.
    + intros e ->. reflexivity.
    + intros req -> ->. reflexivity.
Qed.

(** ** The streaming endpoint *)

(** X16: what [handleStream] answers before any byte is sent: 400 ["URL
    parameter is required"] for a missing or empty [url], with nothing
    logged or started; 500 ["Failed to start download"] when a pipe cannot
    be made, without calling [Start]; and the same 500 when [Start] fails,
    after which neither the logger nor the copy nor [Wait] follows. *)
Theorem handleStream_fails_before_streaming (world : World) (r : Request) :
  let url := Values_Get (URL_Query r) "url" in
  let cmd := exec_Command world (streamArgv r) in
  let failed (log : list Event) :=
    {| StatusCode := StatusInternalServerError;
       ResponseBody := [Bytes ("Failed to start download" +:+ newline)];
       calls := Log "Streaming video from: %s" [ArgStr url] :: log |} in
  (url = "" ->
   serve (handleStream world) r
   = {| StatusCode := StatusBadRequest;
        ResponseBody := [Bytes ("URL parameter is required" +:+ newline)];
        calls := [] |}) /\
  (url <> "" ->
   (forall e, StdoutPipe_err cmd = Some e ->
      serve (handleStream world) r
      = failed [Log "Failed to create stdout pipe: %v" [ArgStr e]]) /\
   (forall e, StdoutPipe_err cmd = None -> StderrPipe_err cmd = Some e ->
      serve (handleStream world) r
      = failed [Log "Failed to create stderr pipe: %v" [ArgStr e]]) /\
   (forall e, StdoutPipe_err cmd = None -> StderrPipe_err cmd = None ->
      Start_err cmd = Some e ->
      serve (handleStream world) r
      = failed [CmdStart (streamArgv r);
                Log "Failed to start yt-dlp: %v" [ArgStr e]])).
Proof.
  intros url cmd failed. unfold serve, handleStream.
  fold (streamArgv r). fold cmd. fold url. split.
  - intros ->. reflexivity.
  - intros Hu. rewrite (eqb_false _ _ Hu). repeat split.
    + intros e ->. reflexivity.
    + intros e -> ->. reflexivity.
    + intros e -> -> ->. reflexivity.
Qed.

Lemma handleStream_fails_before_streaming_witness :
  serve (handleStream (exampleWorld None finishedCmd)) (getPath "/api/stream")
  = {| StatusCode := 400;
       ResponseBody := [Bytes ("URL parameter is required" +:+ newline)];
       calls := [] |} /\
  serve (handleStream (exampleWorld None missingToolCmd)) (getStream reelURL)
  = {| StatusCode := 500;
       ResponseBody := [Bytes ("Failed to start download" +:+ newline)];
       calls := [Log "Streaming video from: %s" [ArgStr reelURL];
                 CmdStart ["yt-dlp"; "-o"; "-"; "--no-warnings"; "-f";
                           "best"; reelURL];
                 Log "Failed to start yt-dlp: %v"
                     [ArgStr "exec: yt-dlp: executable file not found"]] |}.
Proof.
  split.
  - destruct (handleStream_fails_before_streaming
                (exampleWorld None finishedCmd) (getPath "/api/stream"))
      as [H _].
    apply H. reflexivity.
  - destruct (handleStream_fails_before_streaming
                (exampleWorld None missingToolCmd) (getStream reelURL))
      as [_ H].
    destruct H as (_ & _ & H); [vm_compute; discriminate|].
    rewrite (H "exec: yt-dlp: executable file not found") by reflexivity.
    vm_compute. reflexivity.
Defined.

(** Once the subprocess runs, the handler is the copy followed by its
    bookkeeping. *)
Lemma handleStream_started (world : World) (r : Request) :
  Values_Get (URL_Query r) "url" <> "" ->
  let cmd := exec_Command world (streamArgv r) in
  StdoutPipe_err cmd = None -> StderrPipe_err cmd = None ->
  Start_err cmd = None ->
  handleStream world r =
  (log_Printf "Streaming video from: %s"
              [ArgStr (Values_Get (URL_Query r) "url")] ;;
   emit (CmdStart (streamArgv r)) ;;
   emit GoStderrLogger ;;
   Header_Set "Content-Type" "video/mp4" ;;
   Header_Set "Transfer-Encoding" "chunked" ;;
   Header_Set "Cache-Control" "no-cache" ;;
   (if String.eqb (Copy_written cmd) "" then mret tt
    else Write (Bytes (Copy_written cmd))) ;;
   emit (IoCopy (String.length (Copy_written cmd))) ;;
   match Copy_err cmd with
   | Some err => log_Printf "Error streaming video: %v" [ArgStr err]
   | None =>
     emit CmdWait ;;
     match Wait_err cmd with
     | Some err => log_Printf "yt-dlp process error: %v" [ArgStr err]
     | None => mret tt
     end ;;
     log_Printf "Streamed %d bytes"
                [ArgInt (String.length (Copy_written cmd))]
   end).
Proof.
  intros Hu cmd H1 H2 H3. unfold handleStream.
  fold (streamArgv r). fold cmd. rewrite (eqb_false _ _ Hu), H1, H2, H3.
  reflexivity.
Qed.

(** X17: once the subprocess runs, the client sees status 200 and exactly
    the bytes that the copy moved, whatever the copy or [Wait] answer: an
    error after the start changes neither the status nor the body. *)
Theorem handleStream_committed_response (world : World) (r : Request) :
  Values_Get (URL_Query r) "url" <> "" ->
  let cmd := exec_Command world (streamArgv r) in
  StdoutPipe_err cmd = None -> StderrPipe_err cmd = None ->
  Start_err cmd = None ->
  StatusCode (serve (handleStream world) r) = StatusOK /\
  ResponseBody (serve (handleStream world) r) = forwarded cmd.
Proof.
  intros Hu cmd H1 H2 H3. unfold serve.
  rewrite (handleStream_started _ _ Hu H1 H2 H3). fold cmd. unfold forwarded.
  destruct (String.eqb (Copy_written cmd) ""), (Copy_err cmd), (Wait_err cmd);
    split; reflexivity.
Qed.

Lemma handleStream_committed_response_witness :
  let res cmd := serve (handleStream (exampleWorld None cmd))
                       (getStream reelURL) in
  (StatusCode (res disconnectedCmd) = StatusOK /\
   ResponseBody (res disconnectedCmd) = [Bytes "abc"]) /\
  (StatusCode (res crashedCmd) = StatusOK /\
   ResponseBody (res crashedCmd) = [Bytes "ab"]).
Proof.
  intros res. split.
  - apply (handleStream_committed_response
             (exampleWorld None disconnectedCmd) (getStream reelURL));
      [vm_compute; discriminate | reflexivity ..].
  - apply (handleStream_committed_response
             (exampleWorld None crashedCmd) (getStream reelURL));
      [vm_compute; discriminate | reflexivity ..].
Defined.

(** X18: when the copy ends without error, the handler waits for the
    subprocess, logs its exit error if it has one, and logs the number of
    bytes forwarded, which is the length of what the copy moved. *)
Theorem handleStream_records_exit (world : World) (r : Request) :
  Values_Get (URL_Query r) "url" <> "" ->
  let cmd := exec_Command world (streamArgv r) in
  StdoutPipe_err cmd = None -> StderrPipe_err cmd = None ->
  Start_err cmd = None -> Copy_err cmd = None ->
  let n := String.length (Copy_written cmd) in
  calls (serve (handleStream world) r)
  = ([Log "Streaming video from: %s"
          [ArgStr (Values_Get (URL_Query r) "url")];
      CmdStart (streamArgv r); GoStderrLogger; IoCopy n; CmdWait]
     ++ match Wait_err cmd with
        | Some err => [Log "yt-dlp process error: %v" [ArgStr err]]
        | None => []
        end
     ++ [Log "Streamed %d bytes" [ArgInt n]])%list.
Proof.
  intros Hu cmd H1 H2 H3 H4 n. unfold serve.
  rewrite (handleStream_started _ _ Hu H1 H2 H3). fold cmd. rewrite H4.
  destruct (String.eqb (Copy_written cmd) ""), (Wait_err cmd); reflexivity.
Qed.

Lemma handleStream_records_exit_witness :
  let world := exampleWorld None crashedCmd in
  calls (serve (handleStream world) (getStream reelURL))
  = [Log "Streaming video from: %s" [ArgStr reelURL];
     CmdStart ["yt-dlp"; "-o"; "-"; "--no-warnings"; "-f"; "best"; reelURL];
     GoStderrLogger; IoCopy 2; CmdWait;
     Log "yt-dlp process error: %v" [ArgStr "exit status 1"];
     Log "Streamed %d bytes" [ArgInt 2]].
Proof.
  intros world.
  rewrite (handleStream_records_exit world (getStream reelURL))
    by first [reflexivity | vm_compute; discriminate].
  vm_compute. reflexivity.
Defined.

(** X19: once the subprocess runs, the response is declared as
    [video/mp4], chunked and not to be cached. *)
Theorem handleStream_headers (world : World) (r : Request) :
  Values_Get (URL_Query r) "url" <> "" ->
  let cmd := exec_Command world (streamArgv r) in
  StdoutPipe_err cmd = None -> StderrPipe_err cmd = None ->
  Start_err cmd = None ->
  let h := header (served (handleStream world) r) in
  Values_Get h "Content-Type" = "video/mp4" /\
  Values_Get h "Transfer-Encoding" = "chunked" /\
  Values_Get h "Cache-Control" = "no-cache".
Proof.
  intros Hu cmd H1 H2 H3. unfold served.
  rewrite (handleStream_started _ _ Hu H1 H2 H3). fold cmd.
  destruct (String.eqb (Copy_written cmd) ""), (Copy_err cmd), (Wait_err cmd);
    repeat split.
Qed.

Lemma handleStream_headers_witness :
  let world := exampleWorld None finishedCmd in
  let h := header (served (handleStream world) (getStream reelURL)) in
  Values_Get h "Content-Type" = "video/mp4" /\
  Values_Get h "Transfer-Encoding" = "chunked" /\
  Values_Get h "Cache-Control" = "no-cache".
Proof.
  intros world.
  apply (handleStream_headers world (getStream reelURL));
    [vm_compute; discriminate | reflexivity ..].
Defined.

(** *** The goroutine on the diagnostic stream *)

Lemma append_empty (s : string) : s +:+ "" = s.
Proof.
  induction s as [|c s IH]; [reflexivity|].
  change (String c s +:+ "") with (String c (s +:+ "")). rewrite IH.
  reflexivity.
Qed.

Lemma append_append (a b c : string) : (a +:+ b) +:+ c = a +:+ b +:+ c.
Proof.
  induction a as [|x a IH]; [reflexivity|].
  change ((String x a +:+ b) +:+ c) with (String x ((a +:+ b) +:+ c)).
  rewrite IH. reflexivity.
Qed.

Lemma len_String (c : ascii) (s : string) : len (String c s) = len s + 1.
Proof. unfold len. cbn [String.length]. lia. Qed.

Lemma len_append (a b : string) : len (a +:+ b) = len a + len b.
Proof.
  induction a as [|x a IH]; [reflexivity|].
  change (String x a +:+ b) with (String x (a +:+ b)).
  rewrite !len_String, IH. lia.
Qed.

(** A line that fits and its line feed: the line is the next token. *)
Lemma Scan_line (l : string) :
  forall held rest,
    no_lf l = true ->
    len held + len l < MaxScanTokenSize ->
    Scan (l +:+ String lf rest) held (len held)
    = dropCR (held +:+ l) :: Scan rest "" 0.
Proof.
  induction l as [|c l IH]; intros held rest Hl Hn.
  - change ("" +:+ String lf rest) with (String lf rest). cbn [Scan].
    rewrite Ascii.eqb_refl, append_empty. reflexivity.
  - change (String c l +:+ String lf rest)
      with (String c (l +:+ String lf rest)).
    cbn [no_lf] in Hl. apply andb_true_iff in Hl. destruct Hl as [Hc Hl].
    apply negb_true_iff in Hc. cbn [Scan]. rewrite Hc.
    rewrite len_String in Hn.
    destruct (N.leb_spec MaxScanTokenSize (len held + 1)); [lia|].
    replace (len held + 1) with (len (held +:+ String c ""))
      by (rewrite len_append; reflexivity).
    rewrite IH;
      [|exact Hl|rewrite len_append, len_String; change (len "") with 0; lia].
    rewrite append_append. reflexivity.
Qed.

(** The bytes left when the pipe ends are the last token. *)
Lemma Scan_last (l : string) :
  forall held,
    no_lf l = true ->
    len held + len l < MaxScanTokenSize ->
    Scan l held (len held)
    = if len held + len l =? 0 then [] else [dropCR (held +:+ l)].
Proof.
  induction l as [|c l IH]; intros held Hl Hn.
  - cbn [Scan]. change (len "") with 0. rewrite N.add_0_r, append_empty.
    reflexivity.
  - cbn [no_lf] in Hl. apply andb_true_iff in Hl. destruct Hl as [Hc Hl].
    apply negb_true_iff in Hc. cbn [Scan]. rewrite Hc.
    rewrite len_String in *.
    destruct (N.leb_spec MaxScanTokenSize (len held + 1)); [lia|].
    replace (len held + 1) with (len (held +:+ String c ""))
      by (rewrite len_append; reflexivity).
    rewrite IH;
      [|exact Hl|rewrite len_append, len_String; change (len "") with 0; lia].
    rewrite append_append, len_append, len_String.
    change (String c "" +:+ l) with (String c l).
    destruct (N.eqb_spec (len held + (len "" + 1) + len l) 0); [lia|].
    destruct (N.eqb_spec (len held + (len l + 1)) 0); [lia|]. reflexivity.
Qed.

(** A line that does not fit ends the scan, whatever follows it. *)
Lemma Scan_long (l : string) :
  forall held rest,
    no_lf l = true ->
    len held < MaxScanTokenSize ->
    MaxScanTokenSize <= len held + len l ->
    Scan (l +:+ rest) held (len held) = [].
Proof.
  induction l as [|c l IH]; intros held rest Hl Hh Hn.
  - change (len "") with 0 in Hn. lia.
  - change (String c l +:+ rest) with (String c (l +:+ rest)).
    cbn [no_lf] in Hl. apply andb_true_iff in Hl. destruct Hl as [Hc Hl].
    apply negb_true_iff in Hc. cbn [Scan]. rewrite Hc.
    rewrite len_String in Hn.
    destruct (N.leb_spec MaxScanTokenSize (len held + 1)); [reflexivity|].
    replace (len held + 1) with (len (held +:+ String c ""))
      by (rewrite len_append; reflexivity).
    apply IH; [exact Hl|..];
      rewrite len_append, len_String; change (len "") with 0; lia.
Qed.

Lemma Scan_unlines (lines : list string) (tail : string) :
  Forall (fun l => no_lf l = true /\ len l < MaxScanTokenSize) lines ->
  Scan (unlines lines +:+ tail) "" 0
  = (map dropCR lines ++ Scan tail "" 0)%list.
Proof.
  induction 1 as [|l lines [Hl Hn] _ IH]; [reflexivity|].
  cbn [unlines map app]. rewrite append_append.
  change (String lf (unlines lines) +:+ tail)
    with (String lf (unlines lines +:+ tail)).
  change 0 with (len "") at 1.
  rewrite Scan_line by (try exact Hl; change (len "") with 0; lia).
  rewrite IH. reflexivity.
Qed.

(** X20: what the goroutine on the diagnostic stream logs.  The scanner
    delivers every line shorter than 64 KiB, without its line feed and
    carriage return, and the unfinished last line; a line of 64 KiB or more
    stops it for good, so that nothing after that line is delivered.  Of
    the lines delivered, exactly those without ["[download]"] are logged,
    and nothing else is. *)
Theorem stderrLogger_scanned_lines (lines : list string)
    (last rest : string) :
  Forall (fun l => no_lf l = true /\ len l < MaxScanTokenSize) lines ->
  no_lf last = true ->
  (len last < MaxScanTokenSize ->
   Scanner_Text (unlines lines +:+ last)
   = (map dropCR lines
      ++ (if String.eqb last "" then [] else [dropCR last]))%list) /\
  (MaxScanTokenSize <= len last ->
   Scanner_Text (unlines lines +:+ last +:+ rest) = map dropCR lines) /\
  (forall read line,
     In (Log "yt-dlp: %s" [ArgStr line]) (stderrLogger read) <->
     In line (Scanner_Text read) /\
     (forall a b, line <> a +:+ "[download]" +:+ b)) /\
  (forall read e, In e (stderrLogger read) ->
     exists line, e = Log "yt-dlp: %s" [ArgStr line]).
Proof.
  intros Hlines Hlast. unfold Scanner_Text. split; [|split; [|split]].
  - intros Hn. rewrite (Scan_unlines _ _ Hlines). f_equal.
    change 0 with (len "") at 1.
    rewrite Scan_last by (try exact Hlast; change (len "") with 0; lia).
    change (len "") with 0. change ("" +:+ last) with last.
    destruct last as [|c last]; [reflexivity|].
    rewrite len_String.
    destruct (N.eqb_spec (0 + (len last + 1)) 0); [lia|reflexivity].
  - intros Hn. rewrite (Scan_unlines _ _ Hlines).
    change 0 with (len "") at 1.
    rewrite Scan_long
      by (try exact Hlast; change (len "") with 0;
          unfold MaxScanTokenSize in *; lia).
    apply app_nil_r.
  - intros read line. unfold stderrLogger, Scanner_Text. split.
    + intros H. apply in_map_iff in H. destruct H as (l & [= ->] & H).
      apply filter_In in H. destruct H as [Hin H]. split; [exact Hin|].
      intros a b ->. rewrite Contains_app in H. discriminate.
    + intros [Hin Hno].
      apply (in_map (fun l => Log "yt-dlp: %s" [ArgStr l])). apply filter_In.
      split; [exact Hin|].
      destruct (strings.Contains line "[download]") eqn:C; [|reflexivity].
      apply Contains_inv in C. destruct C as (a & b & ->).
      destruct (Hno a b). reflexivity.
  - intros read e H. unfold stderrLogger in H. apply in_map_iff in H.
    destruct H as (line & <- & _). exists line. reflexivity.
Qed.

Lemma stderrLogger_scanned_lines_witness :
  let lines := ["[download]  42.0% of 1.20MiB";
                "ERROR: unable to download video data" +:+ String cr ""] in
  let last := "WARNING: connection lost" in
  Forall (fun l => no_lf l = true /\ len l < MaxScanTokenSize) lines /\
  no_lf last = true /\
  stderrLogger (unlines lines +:+ last)
  = [Log "yt-dlp: %s" [ArgStr "ERROR: unable to download video data"];
     Log "yt-dlp: %s" [ArgStr "WARNING: connection lost"]].
Proof.
  intros lines last.
  assert (Hlines : Forall (fun l => no_lf l = true /\ len l < MaxScanTokenSize)
                     lines)
    by (repeat constructor; vm_compute; reflexivity).
  assert (Hlast : no_lf last = true) by (vm_compute; reflexivity).
  split; [exact Hlines|]. split; [exact Hlast|].
  destruct (stderrLogger_scanned_lines lines last "" Hlines Hlast)
    as (Hscan & _).
  unfold stderrLogger. rewrite Hscan by (vm_compute; reflexivity).
  vm_compute. reflexivity.
Defined.

(** ** The front controller *)

(** X21: a request that the mux does not redirect (its path is clean) and
    whose path is none of [/], [/api/auth], [/api/info] and [/api/stream]
    goes to [serveIndex] and is answered 404 ["404 page not found"], with
    any method and whatever the store holds. *)
Theorem mux_not_found (world : World) (r : Request) :
  clean_path (URL_Path r) = true ->
  ~ In (URL_Path r) ["/"; "/api/auth"; "/api/info"; "/api/stream"] ->
  serve (mux world) r = serve (serveIndex world) r /\
  serve (serveIndex world) r
  = {| StatusCode := StatusNotFound;
       ResponseBody := [Bytes ("404 page not found" +:+ newline)];
       calls := [] |}.
Proof.
  intros _ H. cbn [In] in H. unfold serve, mux, serveIndex.
  rewrite !eqb_false by (intros E; apply H; rewrite E; tauto).
  split; reflexivity.
Qed.

Lemma mux_not_found_witness :
  let world := exampleWorld (Some (tableClient adaRecords)) finishedCmd in
  clean_path "/favicon.ico" = true /\
  clean_path "/api//auth" = false /\
  serve (mux world) (getPath "/favicon.ico")
  = {| StatusCode := 404;
       ResponseBody := [Bytes ("404 page not found" +:+ newline)];
       calls := [] |}.
Proof.
  intros world.
  assert (Hc : clean_path (URL_Path (getPath "/favicon.ico")) = true)
    by (vm_compute; reflexivity).
  assert (Hn : ~ In (URL_Path (getPath "/favicon.ico"))
                    ["/"; "/api/auth"; "/api/info"; "/api/stream"]).
  { vm_compute. intros H. repeat destruct H as [H|H]; try discriminate.
    exact H. }
  split; [exact Hc|]. split; [vm_compute; reflexivity|].
  destruct (mux_not_found world (getPath "/favicon.ico") Hc Hn) as [Hm Hs].
  rewrite Hm. exact Hs.
Defined.

(** X22: the root path is answered with the content of
    [static/index.html] as [text/html]; when the file cannot be read the
    answer is 500 ["Internal server error"] and the error is logged. *)
Theorem serveIndex_root (world : World) (r : Request) :
  URL_Path r = "/" ->
  (forall content, ReadFile world "static/index.html" = inl content ->
     serve (mux world) r
     = {| StatusCode := StatusOK; ResponseBody := [Bytes content];
          calls := [] |} /\
     Values_Get (header (served (mux world) r)) "Content-Type"
     = "text/html; charset=utf-8") /\
  (forall e, ReadFile world "static/index.html" = inr e ->
     serve (mux world) r
     = {| StatusCode := StatusInternalServerError;
          ResponseBody := [Bytes ("Internal server error" +:+ newline)];
          calls := [Log "Error reading index.html: %v" [ArgStr e]] |}).
Proof.
  intros Hp. unfold served, serve, mux, serveIndex. rewrite Hp.
  cbn [String.eqb Ascii.eqb Bool.eqb negb]. split.
  - intros content ->. split; reflexivity.
  - intros e ->. reflexivity.
Qed.

Lemma serveIndex_root_witness :
  let missing := exampleWorld None finishedCmd in
  let present := withIndex missing "<html></html>" in
  serve (mux present) (getPath "/")
  = {| StatusCode := 200; ResponseBody := [Bytes "<html></html>"];
       calls := [] |} /\
  serve (mux missing) (getPath "/")
  = {| StatusCode := 500;
       ResponseBody := [Bytes ("Internal server error" +:+ newline)];
       calls := [Log "Error reading index.html: %v"
                     [ArgStr "open static/index.html: no such file"]] |}.
Proof.
  intros missing present. split.
  - destruct (serveIndex_root present (getPath "/") eq_refl) as [H _].
    apply (H "<html></html>"). reflexivity.
  - destruct (serveIndex_root missing (getPath "/") eq_refl) as [_ H].
    apply H. reflexivity.
Defined.

(** ** Start-up *)

(** X23: start-up decides the gate.  The table name is never empty: it is
    the environment variable [DYNAMODB_TABLE] when that is set and
    ["insta-stream-users"] otherwise.  A service whose configuration
    failed to load lets every gated request through unchecked; one whose
    configuration loaded answers a request without a code with 401. *)
Theorem init_decides_the_gate (DYNAMODB_TABLE : string) (process : World)
    (next : HandlerFunc) (r : Request) :
  (forall cfg,
     let table := tableName (initWorld DYNAMODB_TABLE cfg process) in
     table <> "" /\
     (DYNAMODB_TABLE <> "" -> table = DYNAMODB_TABLE) /\
     (DYNAMODB_TABLE = "" -> table = "insta-stream-users")) /\
  (forall e,
     withAuth (initWorld DYNAMODB_TABLE (inr e) process) next r = next r) /\
  (forall client, presentedCode r = "" ->
     serve (withAuth (initWorld DYNAMODB_TABLE (inl client) process) next) r
     = {| StatusCode := StatusUnauthorized;
          ResponseBody :=
            [Bytes ("Unauthorized: missing auth code" +:+ newline)];
          calls := [] |}).
Proof.
  split; [|split].
  - intros cfg. cbn [tableName initWorld]. unfold initDynamoDB.
    destruct (String.eqb_spec DYNAMODB_TABLE "") as [E|E], cfg as [c|e];
      cbn [snd]; repeat split; try discriminate; congruence.
  - intros e. apply withAuth_unconfigured. reflexivity.
  - intros client Hp. unfold serve.
    rewrite (withAuth_configured _ client) by reflexivity.
    rewrite Hp. reflexivity.
Qed.

(** ** What a request may cost *)

Lemma count_app (p : Event -> bool) (a b : list Event) :
  count p (a ++ b) = (count p a + count p b)%nat.
Proof. unfold count. rewrite List.filter_app, length_app. reflexivity. Qed.

Lemma within_le {A : Type} (world : World) (m : M A) (a b nl ns : nat) :
  within world a b m -> (a <= nl)%nat -> (b <= ns)%nat ->
  within world nl ns m.
Proof.
  intros H Ha Hb s Hs. destruct (H s Hs) as (t & Ht & Hl & Hp & Hok).
  exists t. repeat split; try tauto; lia.
Qed.

Lemma within_ret {A : Type} (world : World) (a : A) :
  within world 0 0 (mret a).
Proof.
  intros s Hs. exists []. cbn. rewrite app_nil_r. repeat split; auto.
Qed.

Lemma within_bind {A B : Type} (world : World) (m : M A) (k : A -> M B)
    (a b a' b' : nat) :
  within world a b m -> (forall x, within world a' b' (k x)) ->
  within world (a + a') (b + b') (m ≫= k).
Proof.
  intros Hm Hk s Hs. unfold mbind, M_bind.
  destruct (Hm s Hs) as (t & Ht & Hl & Hp & Hok & Hst).
  destruct (m s) as [x s1]. cbn [snd] in *.
  destruct (Hk x s1 Hst) as (t' & Ht' & Hl' & Hp' & Hok' & Hst').
  exists (t ++ t')%list. rewrite Ht', Ht, <- app_assoc, !count_app.
  repeat split; try lia; try assumption.
  apply Forall_app. split; assumption.
Qed.

Lemma within_emit (world : World) (e : Event) :
  lookup_ok world e ->
  within world (if is_lookup e then 1 else 0) (if spawns e then 1 else 0)
         (emit e).
Proof.
  intros He s Hs. exists [e]. unfold count. cbn [List.filter].
  destruct (is_lookup e), (spawns e); repeat split; auto.
Qed.

Lemma within_modify_w (world : World)
    (f : ResponseWriter -> ResponseWriter) :
  (forall rw, In (default StatusOK (status rw)) statusCodes ->
              In (default StatusOK (status (f rw))) statusCodes) ->
  within world 0 0 (modify_w f).
Proof.
  intros Hf s Hs. exists []. cbn. rewrite app_nil_r.
  repeat split; auto. apply Hf, Hs.
Qed.

Lemma within_Header_Set (world : World) (key value : string) :
  within world 0 0 (Header_Set key value).
Proof. apply within_modify_w. auto. Qed.

Lemma within_Header_Del (world : World) (key : string) :
  within world 0 0 (Header_Del key).
Proof. apply within_modify_w. auto. Qed.

Lemma within_WriteHeader (world : World) (code : nat) :
  In code statusCodes -> within world 0 0 (WriteHeader code).
Proof.
  intros Hc. apply within_modify_w. intros rw H. cbn [status].
  destruct (status rw); [exact H | exact Hc].
Qed.

Lemma within_Write (world : World) (c : Chunk) : within world 0 0 (Write c).
Proof.
  unfold Write. apply (within_bind world _ _ 0 0 0 0).
  - apply within_WriteHeader. cbn. auto.
  - intros _. apply within_modify_w. auto.
Qed.

Lemma within_http_Error (world : World) (msg : string) (code : nat) :
  In code statusCodes -> within world 0 0 (http_Error msg code).
Proof.
  intros Hc. unfold http_Error.
  apply (within_bind world _ _ 0 0 0 0); [apply within_Header_Del|].
  intros _.
  apply (within_bind world _ _ 0 0 0 0); [apply within_Header_Set|].
  intros _.
  apply (within_bind world _ _ 0 0 0 0); [apply within_Header_Set|].
  intros _.
  apply (within_bind world _ _ 0 0 0 0); [apply within_WriteHeader, Hc|].
  intros _. apply within_Write.
Qed.

Lemma within_log (world : World) (format : string) (args : list Arg) :
  within world 0 0 (log_Printf format args).
Proof. apply (within_emit world (Log format args)). exact I. Qed.

(** Bounds of a chain of calls, read off its shape. *)
Ltac chain :=
  lazymatch goal with
  | |- within _ _ _ (mbind _ _) =>
    eapply within_bind; [chain | intros ?; chain]
  | |- within _ _ _ (http_Error _ _) =>
    apply within_http_Error; cbn; tauto
  | |- within _ _ _ (log_Printf _ _) => apply within_log
  | |- within _ _ _ (Header_Set _ _) => apply within_Header_Set
  | |- within _ _ _ (Write _) => apply within_Write
  | |- within _ _ _ (Encode _) => apply within_Write
  | |- within _ _ _ (mret _) => apply within_ret
  | |- within _ _ _ (emit ?e) =>
    first [eassumption | apply (within_emit _ e); exact I]
  | |- within _ _ _ (respondAuth _) => unfold respondAuth; chain
  | |- within _ _ _ _ => eassumption
  end.

Ltac leaf := cbn [negb]; eapply within_le; [chain | cbn; lia | cbn; lia].

Ltac break_match :=
  match goal with
  | |- context [match ?x with _ => _ end] =>
    lazymatch x with
    | context [match _ with _ => _ end] => fail
    | _ => destruct x eqn:?
    end
  end.

Lemma within_handleStream (world : World) (r : Request) :
  within world 0 1 (handleStream world r).
Proof. unfold handleStream. repeat break_match; leaf. Qed.

Lemma within_handleVideoInfo (world : World) (r : Request) :
  within world 0 1 (handleVideoInfo world r).
Proof. unfold handleVideoInfo. repeat break_match; leaf. Qed.

Lemma within_serveIndex (world : World) (r : Request) :
  within world 0 0 (serveIndex world r).
Proof. unfold serveIndex. repeat break_match; leaf. Qed.

Lemma within_validateCode (world : World) (code : string) :
  isValidCodeFormat code = true ->
  within world 1 0 (validateCode world code).
Proof.
  intros Hf. unfold validateCode.
  assert (Hk : within world 1 0
                 (emit (StoreGetItem (tableName world)
                                     (strings.ToUpper code)))).
  { apply (within_emit world (StoreGetItem _ _)).
    split; [reflexivity|]. unfold isValidCodeFormat in Hf.
    rewrite MatchString_pattern in Hf. exact Hf. }
  repeat break_match; leaf.
Qed.

Lemma within_handleAuth (world : World) (r : Request) :
  within world 1 0 (handleAuth world r).
Proof.
  unfold handleAuth.
  destruct (negb _); [leaf|].
  destruct (Decode_AuthRequest _ _) as [req|]; [|leaf].
  destruct (String.eqb _ _); [leaf|].
  destruct (isValidCodeFormat (Code req)) eqn:Hf; [|leaf].
  cbn [negb]. pose proof (within_validateCode world _ Hf) as Hv.
  eapply within_le; [eapply within_bind; [exact Hv|]| |].
  - intros [[valid name] err].
    instantiate (1 := 0%nat). instantiate (1 := 0%nat).
    repeat break_match; leaf.
  - lia.
  - lia.
Qed.

Lemma within_withAuth (world : World) (next : HandlerFunc) (r : Request)
    (ns : nat) :
  within world 0 ns (next r) -> within world 1 ns (withAuth world next r).
Proof.
  intros Hn. unfold withAuth.
  destruct (dynamoClient world) eqn:Hc; [|eapply within_le; [exact Hn|lia..]].
  fold (presentedCode r).
  destruct (String.eqb _ ""); [leaf|].
  destruct (isValidCodeFormat (presentedCode r)) eqn:Hf; [|leaf].
  cbn [negb]. pose proof (within_validateCode world _ Hf) as Hv.
  eapply within_le; [eapply within_bind; [exact Hv|]| |].
  - intros [[valid name] err]. instantiate (1 := ns). instantiate (1 := 0%nat).
    repeat break_match; try exact Hn; leaf.
  - lia.
  - lia.
Qed.

Lemma within_mux (world : World) (r : Request) :
  within world 1 1 (mux world r) /\
  (URL_Path r = "/api/auth" -> within world 1 0 (mux world r)).
Proof.
  unfold mux. split.
  - repeat break_match.
    + eapply within_le; [apply within_handleAuth|lia..].
    + apply within_withAuth, within_handleVideoInfo.
    + apply within_withAuth, within_handleStream.
    + eapply within_le; [apply within_serveIndex|lia..].
  - intros ->. apply within_handleAuth.
Qed.

Lemma within_serve (world : World) (h : HandlerFunc) (r : Request)
    (nl ns : nat) :
  within world nl ns (h r) ->
  (count is_lookup (calls (serve h r)) <= nl)%nat /\
  (count spawns (calls (serve h r)) <= ns)%nat /\
  Forall (lookup_ok world) (calls (serve h r)) /\
  In (StatusCode (serve h r)) statusCodes.
Proof.
  intros H.
  destruct (H {| w := newResponseWriter; trace := [] |})
    as (t & Ht & Hl & Hs & Hok & Hst); [cbn; auto|].
  unfold serve. cbn [calls StatusCode]. rewrite Ht. cbn [trace app].
  repeat split; assumption.
Qed.

(** X24: what the code of a request may cost.  Each registered handler
    calls [dynamoClient.GetItem] at most once and starts at most one
    subprocess on any request; [handleAuth] and [serveIndex] start none and
    [serveIndex] makes no lookup.  So does the service on a request that the
    mux does not redirect.  (What the client library does inside one call
    of [GetItem] is not part of [main.go] and is not counted.) *)
Theorem mux_single_attempt (world : World) (r : Request) :
  Forall (fun h : HandlerFunc =>
            (count is_lookup (calls (serve h r)) <= 1)%nat /\
            (count spawns (calls (serve h r)) <= 1)%nat)
         [serveIndex world; handleAuth world;
          withAuth world (handleVideoInfo world);
          withAuth world (handleStream world)] /\
  count spawns (calls (serve (handleAuth world) r)) = 0%nat /\
  count spawns (calls (serve (serveIndex world) r)) = 0%nat /\
  count is_lookup (calls (serve (serveIndex world) r)) = 0%nat /\
  (clean_path (URL_Path r) = true ->
   (count is_lookup (calls (serve (mux world) r)) <= 1)%nat /\
   (count spawns (calls (serve (mux world) r)) <= 1)%nat /\
   (URL_Path r = "/api/auth" ->
    count spawns (calls (serve (mux world) r)) = 0%nat)).
Proof.
  pose proof (within_serve _ _ _ _ _ (within_serveIndex world r))
    as (Hi1 & Hi2 & _).
  pose proof (within_serve _ _ _ _ _ (within_handleAuth world r))
    as (Ha1 & Ha2 & _).
  pose proof (within_serve _ _ _ _ _
                (within_withAuth world _ r _ (within_handleVideoInfo world r)))
    as (Hv1 & Hv2 & _).
  pose proof (within_serve _ _ _ _ _
                (within_withAuth world _ r _ (within_handleStream world r)))
    as (Hs1 & Hs2 & _).
  split; [repeat (constructor; [split; lia|]); constructor|].
  split; [lia|]. split; [lia|]. split; [lia|]. intros _.
  destruct (within_mux world r) as [H Ha].
  destruct (within_serve _ _ _ _ _ H) as (Hl & Hs & _).
  split; [exact Hl|]. split; [exact Hs|].
  intros Hp. destruct (within_serve _ _ _ _ _ (Ha Hp)) as (_ & H0 & _). lia.
Qed.

(** X25: each registered handler answers only with the status codes 200,
    400, 401, 404, 405 and 500, and so does the service on a request that
    the mux does not redirect (its path is clean). *)
Theorem mux_status_codes (world : World) (r : Request) :
  clean_path (URL_Path r) = true ->
  In (StatusCode (serve (mux world) r)) [200; 400; 401; 404; 405; 500]%nat /\
  Forall (fun h : HandlerFunc =>
            In (StatusCode (serve h r)) [200; 400; 401; 404; 405; 500]%nat)
         [serveIndex world; handleAuth world;
          withAuth world (handleVideoInfo world);
          withAuth world (handleStream world)].
Proof.
  intros _. change [200; 400; 401; 404; 405; 500]%nat with statusCodes.
  split.
  - destruct (within_mux world r) as [H _].
    apply (within_serve _ _ _ _ _ H).
  - constructor;
      [apply (within_serve _ _ _ _ _ (within_serveIndex world r))|].
    constructor;
      [apply (within_serve _ _ _ _ _ (within_handleAuth world r))|].
    constructor;
      [apply (within_serve _ _ _ _ _
                (within_withAuth world _ r _
                   (within_handleVideoInfo world r)))|].
    constructor;
      [apply (within_serve _ _ _ _ _
                (within_withAuth world _ r _ (within_handleStream world r)))|].
    constructor.
Qed.

Lemma mux_status_codes_witness :
  let world := exampleWorld (Some (tableClient adaRecords)) finishedCmd in
  let r := getStream reelURL in
  clean_path (URL_Path r) = true /\
  StatusCode (serve (mux world) r) = 401%nat /\
  In (StatusCode (serve (mux world) r)) [200; 400; 401; 404; 405; 500]%nat.
Proof.
  intros world r.
  assert (Hc : clean_path (URL_Path r) = true) by (vm_compute; reflexivity).
  split; [exact Hc|]. split; [vm_compute; reflexivity|].
  exact (proj1 (mux_status_codes world r Hc)).
Defined.

(** X26: the store is only ever asked for a canonical code, in the
    configured table: a malformed code never reaches it. *)
Theorem mux_lookup_keys (world : World) (r : Request) (table key : string) :
  In (StoreGetItem table key) (calls (serve (mux world) r)) ->
  table = tableName world /\ canonical_code key = true.
Proof.
  intros Hin. destruct (within_mux world r) as [H _].
  destruct (within_serve _ _ _ _ _ H) as (_ & _ & Hok & _).
  rewrite List.Forall_forall in Hok. exact (Hok _ Hin).
Qed.

Lemma mux_lookup_keys_witness :
  let world := exampleWorld (Some (tableClient adaRecords)) finishedCmd in
  let r := getStreamWithAuth reelURL "xyz-789" in
  In (StoreGetItem "insta-stream-users" "XYZ-789")
     (calls (serve (mux world) r)) /\
  canonical_code "XYZ-789" = true.
Proof.
  intros world r.
  assert (Hin : In (StoreGetItem "insta-stream-users" "XYZ-789")
                   (calls (serve (mux world) r)))
    by (vm_compute; left; reflexivity).
  split; [exact Hin|].
  exact (proj2 (mux_lookup_keys world r _ _ Hin)).
Defined.
